(** * cnft-client: the compressed-NFT demonstration script

    A shallow embedding of [src/index.ts].  The script is glue code over the
    Solana web3 SDK, the SPL account-compression SDK, the Bubblegum SDK and a
    digital-asset indexing API.  What those collaborators compute is left
    open (class [Sdk]); what they answer at run time is left to an arbitrary
    environment (class [World]).  The script itself ([main], [createTree],
    [mintCompressedNFT], [transferCompressedNFT], [burnCompressedNFT]) is
    written in a small monad that threads the environment, propagates thrown
    errors and records every observable action in a trace. *)

From Stdlib Require Import String Ascii List ZArith Bool Lia DecimalString.
Import ListNotations.
Local Open Scope string_scope.
Local Open Scope Z_scope.
Local Open Scope list_scope.

Set Implicit Arguments.

(** ** Results of fallible code *)

(** A thrown JavaScript error, identified by its message. *)
Definition JsError := string.

Inductive Outcome (A : Type) : Type :=
| Ok (a : A)
| Throw (e : JsError).
Arguments Ok {A} a.
Arguments Throw {A} e.

Definition outcome_map {A B} (f : A -> B) (o : Outcome A) : Outcome B :=
  match o with
  | Ok a => Ok (f a)
  | Throw e => Throw e
  end.

(** ** JavaScript built-ins used by the script *)

(** [Array.prototype.slice(start, end)] for integer arguments: a negative
    index counts from the end of the array, and both are clamped. *)
Definition js_slice {A} (start end_ : Z) (l : list A) : list A :=
  let len := Z.of_nat (length l) in
  let k := if start <? 0 then Z.max (len + start) 0 else Z.min start len in
  let final := if end_ <? 0 then Z.max (len + end_) 0 else Z.min end_ len in
  firstn (Z.to_nat (final - k)) (skipn (Z.to_nat k) l).

(** [n || 0] on a number: zero is falsy, every other integer is kept. *)
Definition js_or_zero (n : Z) : Z := if n =? 0 then 0 else n.

(** The line feed that starts the failure messages. *)
Definition LF : string := String (ascii_of_nat 10) EmptyString.

(** ** The SDK types and pure functions the script calls *)

Class Sdk : Type := {
  PublicKey : Type;
  Keypair : Type;
  publicKey : Keypair -> PublicKey;
  toBase58 : PublicKey -> string;
  toBuffer : PublicKey -> list Byte.byte;
  toBytes : PublicKey -> list Byte.byte;
  (** [new PublicKey(s)] throws on a string that is no key. *)
  new_PublicKey : string -> Outcome PublicKey;
  findProgramAddressSync : list (list Byte.byte) -> PublicKey -> PublicKey * Z;
  clusterApiUrl : string -> string;
  trim : string -> string;
  SPL_ACCOUNT_COMPRESSION_PROGRAM_ID : PublicKey;
  SPL_NOOP_PROGRAM_ID : PublicKey;
  BUBBLEGUM_PROGRAM_ID : PublicKey;
  (** The instruction [createAllocTreeIx] resolves to. *)
  AllocTreeInstruction : Type;
  ConcurrentMerkleTreeAccount : Type;
  getAuthority : ConcurrentMerkleTreeAccount -> PublicKey;
  (** The canopy depth is taken to be an integer. *)
  getCanopyDepth : ConcurrentMerkleTreeAccount -> Z;
  MetadataArgs : Type;
  (** [createCompressedNFTMetadata] of [./utils], which is not part of the
      sources at hand: a pure function of the creator's key. *)
  createCompressedNFTMetadata : PublicKey -> MetadataArgs
}.

Inductive Connection : Type :=
| new_Connection (endpoint : string) (commitment : string).

Record ValidDepthSizePair : Type := {
  maxDepth : Z;
  maxBufferSize : Z
}.

Record ConfirmOptions : Type := {
  commitment : string;
  skipPreflight : bool
}.

Record AccountMeta `{Sdk} : Type := {
  pubkey : PublicKey;
  isSigner : bool;
  isWritable : bool
}.

(** Account and argument records of the four Bubblegum instructions. *)
Module CreateTree.
Record Accounts `{Sdk} : Type := {
  treeAuthority : PublicKey;
  merkleTree : PublicKey;
  payer : PublicKey;
  treeCreator : PublicKey;
  logWrapper : PublicKey;
  compressionProgram : PublicKey
}.
Record Args : Type := {
  maxBufferSize : Z;
  maxDepth : Z;
  public : bool
}.
End CreateTree.

Module MintV1.
Record Accounts `{Sdk} : Type := {
  payer : PublicKey;
  merkleTree : PublicKey;
  treeAuthority : PublicKey;
  treeDelegate : PublicKey;
  leafOwner : PublicKey;
  leafDelegate : PublicKey;
  compressionProgram : PublicKey;
  logWrapper : PublicKey
}.
Record Args `{Sdk} : Type := {
  message : MetadataArgs
}.
End MintV1.

Module Transfer.
Record Accounts `{Sdk} : Type := {
  merkleTree : PublicKey;
  treeAuthority : PublicKey;
  leafOwner : PublicKey;
  leafDelegate : PublicKey;
  newLeafOwner : PublicKey;
  logWrapper : PublicKey;
  compressionProgram : PublicKey;
  anchorRemainingAccounts : list AccountMeta
}.
Record Args : Type := {
  root : list Byte.byte;
  dataHash : list Byte.byte;
  creatorHash : list Byte.byte;
  nonce : Z;
  index : Z
}.
End Transfer.

Module Burn.
Record Accounts `{Sdk} : Type := {
  treeAuthority : PublicKey;
  leafOwner : PublicKey;
  leafDelegate : PublicKey;
  merkleTree : PublicKey;
  logWrapper : PublicKey;
  compressionProgram : PublicKey;
  anchorRemainingAccounts : list AccountMeta
}.
Record Args : Type := {
  root : list Byte.byte;
  dataHash : list Byte.byte;
  creatorHash : list Byte.byte;
  nonce : Z;
  index : Z
}.
End Burn.

(** An instruction is what its SDK constructor was applied to. *)
Inductive TransactionInstruction `{Sdk} : Type :=
| Ix_alloc (ix : AllocTreeInstruction)
| createCreateTreeInstruction
    (accounts : CreateTree.Accounts) (args : CreateTree.Args) (programId : PublicKey)
| createMintV1Instruction (accounts : MintV1.Accounts) (args : MintV1.Args)
| createTransferInstruction
    (accounts : Transfer.Accounts) (args : Transfer.Args) (programId : PublicKey)
| createBurnInstruction
    (accounts : Burn.Accounts) (args : Burn.Args) (programId : PublicKey).

Record Transaction `{Sdk} : Type := {
  instructions : list TransactionInstruction;
  feePayer : option PublicKey
}.

(** [new Transaction().add(...)] and the assignment [tx.feePayer = pk]. *)
Definition new_Transaction_add `{Sdk} (ixs : list TransactionInstruction) : Transaction :=
  {| instructions := ixs; feePayer := None |}.

Definition set_feePayer `{Sdk} (tx : Transaction) (pk : PublicKey) : Transaction :=
  {| instructions := instructions tx; feePayer := Some pk |}.

(** ** What the indexing API answers *)

Record Compression : Type := {
  tree : string;
  data_hash : string;
  creator_hash : string;
  leaf_id : Z
}.

Record Ownership : Type := {
  owner : string;
  delegate : option string
}.

Record AssetData : Type := {
  compression : Compression;
  ownership : Ownership
}.

Record AssetProofData : Type := {
  proof : list string;
  root : string
}.

(** ** Remote calls, the trace and the environment *)

(** The calls that leave the process: file access for the wallets, the RPC
    node, and the indexing API. *)
Inductive Call `{Sdk} : Type :=
| Call_getOrCreateKeypair (walletName : string)
| Call_airdropSolIfNeeded (pk : PublicKey)
| Call_createAllocTreeIx (connection : Connection) (merkleTree payer : PublicKey)
    (depthSizePair : ValidDepthSizePair) (canopyDepth : Z)
| Call_sendAndConfirmTransaction (connection : Connection) (tx : Transaction)
    (signers : list Keypair) (options : ConfirmOptions)
| Call_extractAssetId (connection : Connection) (txSignature : string)
    (treeAddress : PublicKey)
| Call_heliusApi (method : string) (id : string)
| Call_fromAccountAddress (connection : Connection) (pk : PublicKey).

Inductive Response `{Sdk} : Type :=
| Resp_keypair (k : Keypair)
| Resp_instruction (ix : AllocTreeInstruction)
| Resp_signature (s : string)
| Resp_assetId (pk : PublicKey)
| Resp_asset (a : AssetData)
| Resp_assetProof (p : AssetProofData)
| Resp_treeAccount (t : ConcurrentMerkleTreeAccount)
| Resp_void.

(** Observable actions, in the order they happen.  [Issue] is the moment a
    request leaves, [Settle] the moment the script sees it fulfilled or
    rejected. *)
Inductive Event `{Sdk} : Type :=
| Issue (c : Call)
| Settle (c : Call) (o : Outcome Response)
| Console_log (args : list string)
| Console_error (msg : string) (err : JsError).

(** The environment: how each call is answered from the current state of
    the outside world.  [settles_second_first] is the race between two
    requests in flight at once. *)
Class World `{Sdk} : Type := {
  W : Type;
  io_getOrCreateKeypair : string -> W -> Outcome Keypair * W;
  io_airdropSolIfNeeded : PublicKey -> W -> Outcome unit * W;
  io_generate : W -> Keypair * W;
  io_createAllocTreeIx :
    Connection -> PublicKey -> PublicKey -> ValidDepthSizePair -> Z ->
    W -> Outcome AllocTreeInstruction * W;
  io_sendAndConfirmTransaction :
    Connection -> Transaction -> list Keypair -> ConfirmOptions ->
    W -> Outcome string * W;
  io_extractAssetId : Connection -> string -> PublicKey -> W -> Outcome PublicKey * W;
  io_getAsset : string -> W -> Outcome AssetData * W;
  io_getAssetProof : string -> W -> Outcome AssetProofData * W;
  io_fromAccountAddress :
    Connection -> PublicKey -> W -> Outcome ConcurrentMerkleTreeAccount * W;
  settles_second_first : W -> bool
}.

(** ** The monad of the script *)

Section Script.
Context {SDK : Sdk} {WORLD : World}.

Definition M (A : Type) : Type := W -> Outcome A * W * list Event.

Definition ret {A} (a : A) : M A := fun w => (Ok a, w, []).

Definition bind {A B} (m : M A) (f : A -> M B) : M B :=
  fun w =>
    match m w with
    | (Ok a, w1, t1) =>
        match f a w1 with
        | (r, w2, t2) => (r, w2, t1 ++ t2)
        end
    | (Throw e, w1, t1) => (Throw e, w1, t1)
    end.

Definition throw {A} (e : JsError) : M A := fun w => (Throw e, w, []).

(** [try { body } catch (err) { handler err }] *)
Definition try_catch {A} (body : M A) (handler : JsError -> M A) : M A :=
  fun w =>
    match body w with
    | (Ok a, w1, t1) => (Ok a, w1, t1)
    | (Throw e, w1, t1) =>
        match handler e w1 with
        | (r, w2, t2) => (r, w2, t1 ++ t2)
        end
    end.

(** A synchronous SDK function that may throw. *)
Definition lift {A} (o : Outcome A) : M A := fun w => (o, w, []).

Definition console_log (args : list string) : M unit :=
  fun w => (Ok tt, w, [Console_log args]).

Definition console_error (msg : string) (err : JsError) : M unit :=
  fun w => (Ok tt, w, [Console_error msg err]).

(** A promise returned by an asynchronous SDK or utility function: the call
    it stands for, how the world answers it, and how the answer is logged. *)
Record Promise (A : Type) : Type := {
  call : Call;
  answer : W -> Outcome A * W;
  logged : A -> Response
}.

(** [await p]: the request is issued and the script blocks until it settles;
    a rejection is thrown. *)
Definition await {A} (p : Promise A) : M A :=
  fun w =>
    match answer p w with
    | (o, w1) => (o, w1, [Issue (call p); Settle (call p) (outcome_map (logged p) o)])
    end.

(** A promise that is never awaited: the request is issued, and its
    fulfilment or rejection is never seen by the caller. *)
Definition detached {A} (p : Promise A) : M unit :=
  fun w =>
    match answer p w with
    | (_, w1) => (Ok tt, w1, [Issue (call p)])
    end.

(** [await Promise.all([p, q])]: both requests are issued before either
    settles; the first rejection is thrown at once, the other request is
    left behind. *)
Definition await_Promise_all {A B} (p : Promise A) (q : Promise B) : M (A * B) :=
  fun w =>
    if settles_second_first w then
      match answer q w with
      | (Throw e, w1) =>
          (Throw e, w1, [Issue (call p); Issue (call q); Settle (call q) (Throw e)])
      | (Ok b, w1) =>
          match answer p w1 with
          | (Throw e, w2) =>
              (Throw e, w2,
               [Issue (call p); Issue (call q);
                Settle (call q) (Ok (logged q b)); Settle (call p) (Throw e)])
          | (Ok a, w2) =>
              (Ok (a, b), w2,
               [Issue (call p); Issue (call q);
                Settle (call q) (Ok (logged q b)); Settle (call p) (Ok (logged p a))])
          end
      end
    else
      match answer p w with
      | (Throw e, w1) =>
          (Throw e, w1, [Issue (call p); Issue (call q); Settle (call p) (Throw e)])
      | (Ok a, w1) =>
          match answer q w1 with
          | (Throw e, w2) =>
              (Throw e, w2,
               [Issue (call p); Issue (call q);
                Settle (call p) (Ok (logged p a)); Settle (call q) (Throw e)])
          | (Ok b, w2) =>
              (Ok (a, b), w2,
               [Issue (call p); Issue (call q);
                Settle (call p) (Ok (logged p a)); Settle (call q) (Ok (logged q b))])
          end
      end.

(** [Keypair.generate()]: local randomness, no request. *)
Definition Keypair_generate : M Keypair :=
  fun w => match io_generate w with (k, w1) => (Ok k, w1, []) end.

Declare Scope script_scope.
Delimit Scope script_scope with script.
Notation "x <- m ;; k" := (bind m (fun x => k))
  (at level 100, m at next level, right associativity) : script_scope.
Notation "m ;; k" := (bind m (fun _ => k))
  (at level 100, right associativity) : script_scope.
Local Open Scope script_scope.

(** [array.map(f)] where [f] may throw: the first throw ends the loop. *)
Fixpoint map_throwing {A B} (f : A -> Outcome B) (l : list A) : Outcome (list B) :=
  match l with
  | [] => Ok []
  | a :: rest =>
      match f a with
      | Throw e => Throw e
      | Ok b =>
          match map_throwing f rest with
          | Throw e => Throw e
          | Ok bs => Ok (b :: bs)
          end
      end
  end.

(** ** The asynchronous functions the script imports *)

(** Modelled from the spec: [getOrCreateKeypair] of [./utils], the local
    persisted wallet keypairs, loaded or generated on demand; one call to the
    outside. *)
Definition getOrCreateKeypair (walletName : string) : Promise Keypair :=
  {| call := Call_getOrCreateKeypair walletName;
     answer := io_getOrCreateKeypair walletName;
     logged := Resp_keypair |}.

(** Modelled from the spec: [airdropSolIfNeeded] of [./utils], the airdrop
    request; one call to the outside, resolving to nothing. *)
Definition airdropSolIfNeeded (pk : PublicKey) : Promise unit :=
  {| call := Call_airdropSolIfNeeded pk;
     answer := io_airdropSolIfNeeded pk;
     logged := fun _ => Resp_void |}.

(** Modelled from the spec: [heliusApi] of [./utils], one remote call to the
    digital-asset indexing API; method [getAsset] fetches the asset
    metadata. *)
Definition heliusApi_getAsset (id : string) : Promise AssetData :=
  {| call := Call_heliusApi "getAsset" id;
     answer := io_getAsset id;
     logged := Resp_asset |}.

(** Modelled from the spec: [heliusApi] of [./utils], method [getAssetProof]
    fetches the asset proof. *)
Definition heliusApi_getAssetProof (id : string) : Promise AssetProofData :=
  {| call := Call_heliusApi "getAssetProof" id;
     answer := io_getAssetProof id;
     logged := Resp_assetProof |}.

(** Modelled from the spec: [extractAssetId] of [./utils], which parses the
    return data of a submitted transaction; one remote call. *)
Definition extractAssetId (connection : Connection) (txSignature : string)
    (treeAddress : PublicKey) : Promise PublicKey :=
  {| call := Call_extractAssetId connection txSignature treeAddress;
     answer := io_extractAssetId connection txSignature treeAddress;
     logged := Resp_assetId |}.

Definition createAllocTreeIx (connection : Connection) (merkleTree payer : PublicKey)
    (depthSizePair : ValidDepthSizePair) (canopyDepth : Z)
    : Promise AllocTreeInstruction :=
  {| call := Call_createAllocTreeIx connection merkleTree payer depthSizePair canopyDepth;
     answer := io_createAllocTreeIx connection merkleTree payer depthSizePair canopyDepth;
     logged := Resp_instruction |}.

Definition sendAndConfirmTransaction (connection : Connection) (tx : Transaction)
    (signers : list Keypair) (options : ConfirmOptions) : Promise string :=
  {| call := Call_sendAndConfirmTransaction connection tx signers options;
     answer := io_sendAndConfirmTransaction connection tx signers options;
     logged := Resp_signature |}.

Definition fromAccountAddress (connection : Connection) (pk : PublicKey)
    : Promise ConcurrentMerkleTreeAccount :=
  {| call := Call_fromAccountAddress connection pk;
     answer := io_fromAccountAddress connection pk;
     logged := Resp_treeAccount |}.

(** ** The script *)

(** The template literal printed after every confirmed transaction. *)
Definition explorer_link (txSignature : string) : string :=
  ("https://explorer.solana.com/tx/" ++ txSignature ++ "?cluster=devnet")%string.

Definition confirmed_skipPreflight : ConfirmOptions :=
  {| commitment := "confirmed"; skipPreflight := true |}.

(** [index.ts], lines 76-156. *)
Definition createTree (connection : Connection) (payer : Keypair)
    (maxDepthSizePair : ValidDepthSizePair) (canopyDepth : Z) : M PublicKey :=
  treeKeypair <- Keypair_generate ;;
  let '(treeAuthority, _bump) :=
    findProgramAddressSync [toBuffer (publicKey treeKeypair)] BUBBLEGUM_PROGRAM_ID in
  allocTreeIx <- await (createAllocTreeIx connection (publicKey treeKeypair)
                          (publicKey payer) maxDepthSizePair canopyDepth) ;;
  let createTreeIx :=
    createCreateTreeInstruction
      {| CreateTree.treeAuthority := treeAuthority;
         CreateTree.merkleTree := publicKey treeKeypair;
         CreateTree.payer := publicKey payer;
         CreateTree.treeCreator := publicKey payer;
         CreateTree.logWrapper := SPL_NOOP_PROGRAM_ID;
         CreateTree.compressionProgram := SPL_ACCOUNT_COMPRESSION_PROGRAM_ID |}
      {| CreateTree.maxBufferSize := maxBufferSize maxDepthSizePair;
         CreateTree.maxDepth := maxDepth maxDepthSizePair;
         CreateTree.public := false |}
      BUBBLEGUM_PROGRAM_ID in
  try_catch
    (let tx := new_Transaction_add [Ix_alloc allocTreeIx; createTreeIx] in
     let tx := set_feePayer tx (publicKey payer) in
     txSignature <- await (sendAndConfirmTransaction connection tx
                             [treeKeypair; payer] confirmed_skipPreflight) ;;
     console_log [explorer_link txSignature] ;;
     console_log ["Tree Address:"; toBase58 (publicKey treeKeypair)] ;;
     ret (publicKey treeKeypair))
    (fun err =>
       console_error (LF ++ "Failed to create merkle tree:")%string err ;;
       throw err).

(** [index.ts], lines 159-215. *)
Definition mintCompressedNFT (connection : Connection) (payer : Keypair)
    (treeAddress : PublicKey) : M PublicKey :=
  let compressedNFTMetadata := createCompressedNFTMetadata (publicKey payer) in
  let '(treeAuthority, _) :=
    findProgramAddressSync [toBuffer treeAddress] BUBBLEGUM_PROGRAM_ID in
  let mintIx :=
    createMintV1Instruction
      {| MintV1.payer := publicKey payer;
         MintV1.merkleTree := treeAddress;
         MintV1.treeAuthority := treeAuthority;
         MintV1.treeDelegate := publicKey payer;
         MintV1.leafOwner := publicKey payer;
         MintV1.leafDelegate := publicKey payer;
         MintV1.compressionProgram := SPL_ACCOUNT_COMPRESSION_PROGRAM_ID;
         MintV1.logWrapper := SPL_NOOP_PROGRAM_ID |}
      (* [Object.assign] with one argument returns that argument. *)
      {| MintV1.message := compressedNFTMetadata |} in
  try_catch
    (let tx := new_Transaction_add [mintIx] in
     let tx := set_feePayer tx (publicKey payer) in
     txSignature <- await (sendAndConfirmTransaction connection tx
                             [payer] confirmed_skipPreflight) ;;
     console_log [explorer_link txSignature] ;;
     assetId <- await (extractAssetId connection txSignature treeAddress) ;;
     ret assetId)
    (fun err =>
       console_error (LF ++ "Failed to mint compressed NFT:")%string err ;;
       throw err).

(** The proof path of lines 255-261 and 343-349: every node becomes a
    read-only, non-signing account, then the canopy part is cut off. *)
Definition proofPath_of (proof : list string) (canopyDepth : Z)
    : Outcome (list AccountMeta) :=
  outcome_map
    (js_slice 0 (Z.of_nat (length proof) - canopyDepth))
    (map_throwing
       (fun node =>
          outcome_map
            (fun pk => {| pubkey := pk; isSigner := false; isWritable := false |})
            (new_PublicKey node))
       proof).

(** The ternary of lines 238-240 and 328-330: a missing (or empty)
    delegate is falsy. *)
Definition delegate_or (delegate : option string) (ownerPublicKey : PublicKey)
    : Outcome PublicKey :=
  match delegate with
  | None => Ok ownerPublicKey
  | Some EmptyString => Ok ownerPublicKey
  | Some d => new_PublicKey d
  end.

(** [index.ts], lines 218-306. *)
Definition transferCompressedNFT (connection : Connection) (assetId : PublicKey)
    (sender receiver : Keypair) : M unit :=
  try_catch
    (fetched <- await_Promise_all
                  (heliusApi_getAsset (toBase58 assetId))
                  (heliusApi_getAssetProof (toBase58 assetId)) ;;
     let '(assetData, assetProofData) := fetched in
     let compression := compression assetData in
     let ownership := ownership assetData in
     let proof := proof assetProofData in
     let root := root assetProofData in
     treePublicKey <- lift (new_PublicKey (tree compression)) ;;
     ownerPublicKey <- lift (new_PublicKey (owner ownership)) ;;
     delegatePublicKey <- lift (delegate_or (delegate ownership) ownerPublicKey) ;;
     treeAccount <- await (fromAccountAddress connection treePublicKey) ;;
     let treeAuthority := getAuthority treeAccount in
     let canopyDepth := js_or_zero (getCanopyDepth treeAccount) in
     proofPath <- lift (proofPath_of proof canopyDepth) ;;
     let newLeafOwner := publicKey receiver in
     rootKey <- lift (new_PublicKey (trim root)) ;;
     dataHashKey <- lift (new_PublicKey (trim (data_hash compression))) ;;
     creatorHashKey <- lift (new_PublicKey (trim (creator_hash compression))) ;;
     let transferIx :=
       createTransferInstruction
         {| Transfer.merkleTree := treePublicKey;
            Transfer.treeAuthority := treeAuthority;
            Transfer.leafOwner := ownerPublicKey;
            Transfer.leafDelegate := delegatePublicKey;
            Transfer.newLeafOwner := newLeafOwner;
            Transfer.logWrapper := SPL_NOOP_PROGRAM_ID;
            Transfer.compressionProgram := SPL_ACCOUNT_COMPRESSION_PROGRAM_ID;
            Transfer.anchorRemainingAccounts := proofPath |}
         {| Transfer.root := toBytes rootKey;
            Transfer.dataHash := toBytes dataHashKey;
            Transfer.creatorHash := toBytes creatorHashKey;
            Transfer.nonce := leaf_id compression;
            Transfer.index := leaf_id compression |}
         BUBBLEGUM_PROGRAM_ID in
     let tx := new_Transaction_add [transferIx] in
     let tx := set_feePayer tx (publicKey sender) in
     txSignature <- await (sendAndConfirmTransaction connection tx
                             [sender] confirmed_skipPreflight) ;;
     console_log [explorer_link txSignature])
    (fun err =>
       console_error (LF ++ "Failed to transfer nft:")%string err ;;
       throw err).

(** [index.ts], lines 309-390. *)
Definition burnCompressedNFT (connection : Connection) (assetId : PublicKey)
    (payer : Keypair) : M unit :=
  try_catch
    (fetched <- await_Promise_all
                  (heliusApi_getAsset (toBase58 assetId))
                  (heliusApi_getAssetProof (toBase58 assetId)) ;;
     let '(assetData, assetProofData) := fetched in
     let compression := compression assetData in
     let ownership := ownership assetData in
     let proof := proof assetProofData in
     let root := root assetProofData in
     treePublicKey <- lift (new_PublicKey (tree compression)) ;;
     ownerPublicKey <- lift (new_PublicKey (owner ownership)) ;;
     delegatePublicKey <- lift (delegate_or (delegate ownership) ownerPublicKey) ;;
     treeAccount <- await (fromAccountAddress connection treePublicKey) ;;
     let treeAuthority := getAuthority treeAccount in
     let canopyDepth := js_or_zero (getCanopyDepth treeAccount) in
     proofPath <- lift (proofPath_of proof canopyDepth) ;;
     rootKey <- lift (new_PublicKey (trim root)) ;;
     dataHashKey <- lift (new_PublicKey (trim (data_hash compression))) ;;
     creatorHashKey <- lift (new_PublicKey (trim (creator_hash compression))) ;;
     let burnIx :=
       createBurnInstruction
         {| Burn.treeAuthority := treeAuthority;
            Burn.leafOwner := ownerPublicKey;
            Burn.leafDelegate := delegatePublicKey;
            Burn.merkleTree := treePublicKey;
            Burn.logWrapper := SPL_NOOP_PROGRAM_ID;
            Burn.compressionProgram := SPL_ACCOUNT_COMPRESSION_PROGRAM_ID;
            Burn.anchorRemainingAccounts := proofPath |}
         {| Burn.root := toBytes rootKey;
            Burn.dataHash := toBytes dataHashKey;
            Burn.creatorHash := toBytes creatorHashKey;
            Burn.nonce := leaf_id compression;
            Burn.index := leaf_id compression |}
         BUBBLEGUM_PROGRAM_ID in
     let tx := new_Transaction_add [burnIx] in
     let tx := set_feePayer tx (publicKey payer) in
     txSignature <- await (sendAndConfirmTransaction connection tx
                             [payer] confirmed_skipPreflight) ;;
     console_log [explorer_link txSignature])
    (fun err =>
       console_error (LF ++ "Failed to burn NFT:")%string err ;;
       throw err).

(** [index.ts], lines 32-73.  The airdrop call of line 43 is not awaited. *)
Definition main : M unit :=
  let connection := new_Connection (clusterApiUrl "devnet") "confirmed" in
  wallet <- await (getOrCreateKeypair "Wallet_1") ;;
  wallet2 <- await (getOrCreateKeypair "Wallet_2") ;;
  detached (airdropSolIfNeeded (publicKey wallet)) ;;
  let maxDepthSizePair := {| maxDepth := 3; maxBufferSize := 8 |} in
  let canopyDepth := 0 in
  treeAddress <- createTree connection wallet maxDepthSizePair canopyDepth ;;
  assetId1 <- mintCompressedNFT connection wallet treeAddress ;;
  assetId2 <- mintCompressedNFT connection wallet treeAddress ;;
  transferCompressedNFT connection assetId1 wallet wallet2 ;;
  burnCompressedNFT connection assetId2 wallet.

End Script.

(** ** Reading a run *)

Section Observations.
Context {SDK : Sdk} {WORLD : World}.

Definition outcome_of {A} (run : Outcome A * W * list Event) : Outcome A :=
  fst (fst run).

Definition trace_of {A} (run : Outcome A * W * list Event) : list Event :=
  snd run.

(** The requests of a trace, in the order they were issued. *)
Fixpoint issued (tr : list Event) : list Call :=
  match tr with
  | [] => []
  | Issue c :: rest => c :: issued rest
  | _ :: rest => issued rest
  end.

(** Every rejected request of a trace, with the error and with all that
    happened after the rejection. *)
Fixpoint rejections (tr : list Event) : list (Call * JsError * list Event) :=
  match tr with
  | [] => []
  | Settle c (Throw e) :: rest => (c, e, rest) :: rejections rest
  | _ :: rest => rejections rest
  end.

(** Every failure of a trace (a rejected request, or a failure report on
    the console), with the error and with all that happened after it. *)
Fixpoint failures (tr : list Event) : list (JsError * list Event) :=
  match tr with
  | [] => []
  | Settle _ (Throw e) :: rest => (e, rest) :: failures rest
  | Console_error _ e :: rest => (e, rest) :: failures rest
  | _ :: rest => failures rest
  end.

(** Every confirmed transaction of a trace, with its signature and with all
    that happened after the confirmation. *)
Fixpoint confirmations (tr : list Event) : list (Transaction * string * list Event) :=
  match tr with
  | [] => []
  | Settle (Call_sendAndConfirmTransaction _ tx _ _) (Ok (Resp_signature s)) :: rest =>
      (tx, s, rest) :: confirmations rest
  | _ :: rest => confirmations rest
  end.

Definition is_heliusApi (c : Call) : bool :=
  match c with
  | Call_heliusApi _ _ => true
  | _ => false
  end.

(** The phases of the workflow, told apart by the Bubblegum instruction a
    submitted transaction carries. *)
Inductive Phase : Type :=
| Phase_createTree
| Phase_mint
| Phase_transfer
| Phase_burn.

Definition phase_of_instruction (ix : TransactionInstruction) : list Phase :=
  match ix with
  | Ix_alloc _ => []
  | createCreateTreeInstruction _ _ _ => [Phase_createTree]
  | createMintV1Instruction _ _ => [Phase_mint]
  | createTransferInstruction _ _ _ => [Phase_transfer]
  | createBurnInstruction _ _ _ => [Phase_burn]
  end.

Definition phases_of_call (c : Call) : list Phase :=
  match c with
  | Call_sendAndConfirmTransaction _ tx _ _ =>
      flat_map phase_of_instruction (instructions tx)
  | _ => []
  end.

Definition submitted_phases (tr : list Event) : list Phase :=
  flat_map phases_of_call (issued tr).

(** Strictly sequential request/response flow: no request is issued while
    another one has not settled. *)
Fixpoint strictly_sequential_from (in_flight : bool) (tr : list Event) : bool :=
  match tr with
  | [] => true
  | Issue _ :: rest =>
      if in_flight then false else strictly_sequential_from true rest
  | Settle _ _ :: rest => strictly_sequential_from false rest
  | _ :: rest => strictly_sequential_from in_flight rest
  end.

Definition strictly_sequential (tr : list Event) : bool :=
  strictly_sequential_from false tr.

(** What is in flight, as far as the awaited requests go. *)
Inductive Flight : Type :=
| Idle
| One (c : Call)
| Both_indexing_requests
| One_of_both.

(** May [c] be issued while [first] is still in flight?  Only the proof
    request of the asset whose metadata request has just been issued. *)
Definition joins (first c : Call) : bool :=
  match first, c with
  | Call_heliusApi m1 id1, Call_heliusApi m2 id2 =>
      String.eqb m1 "getAsset" && String.eqb m2 "getAssetProof" && String.eqb id1 id2
  | _, _ => false
  end.

(** The flow of the awaited requests: a request is issued when nothing is in
    flight, or it is the proof request joining the metadata request of the
    same asset; a rejection ends the wait.  The request of the airdrop,
    which nobody awaits, is passed over. *)
Definition flight_step (f : Flight) (ev : Event) : option Flight :=
  match ev with
  | Issue (Call_airdropSolIfNeeded _) => Some f
  | Issue c =>
      match f with
      | Idle => Some (One c)
      | One first => if joins first c then Some Both_indexing_requests else None
      | _ => None
      end
  | Settle _ (Ok _) =>
      match f with
      | Idle => None
      | One _ => Some Idle
      | Both_indexing_requests => Some One_of_both
      | One_of_both => Some Idle
      end
  | Settle _ (Throw _) =>
      match f with
      | Idle => None
      | _ => Some Idle
      end
  | _ => Some f
  end.

Fixpoint flow (f : Flight) (tr : list Event) : option Flight :=
  match tr with
  | [] => Some f
  | ev :: rest =>
      match flight_step f ev with
      | Some f' => flow f' rest
      | None => None
      end
  end.

Definition awaited_in_turn (tr : list Event) : bool :=
  match flow Idle tr with
  | Some Idle => true
  | _ => false
  end.

Definition read_only (pk : PublicKey) : AccountMeta :=
  {| pubkey := pk; isSigner := false; isWritable := false |}.

(** The proof accounts of a transfer or burn instruction. *)
Definition remaining_accounts (ix : TransactionInstruction)
    : option (list AccountMeta) :=
  match ix with
  | createTransferInstruction accounts _ _ =>
      Some (Transfer.anchorRemainingAccounts accounts)
  | createBurnInstruction accounts _ _ =>
      Some (Burn.anchorRemainingAccounts accounts)
  | _ => None
  end.

(** Owner, delegate, nonce and index of a transfer or burn instruction. *)
Definition leaf_fields (ix : TransactionInstruction)
    : option (PublicKey * PublicKey * Z * Z) :=
  match ix with
  | createTransferInstruction accounts args _ =>
      Some (Transfer.leafOwner accounts, Transfer.leafDelegate accounts,
            Transfer.nonce args, Transfer.index args)
  | createBurnInstruction accounts args _ =>
      Some (Burn.leafOwner accounts, Burn.leafDelegate accounts,
            Burn.nonce args, Burn.index args)
  | _ => None
  end.

(** One invocation of one of the four phases. *)
Inductive Invocation : Type :=
| Invoke_createTree (connection : Connection) (payer : Keypair)
    (maxDepthSizePair : ValidDepthSizePair) (canopyDepth : Z)
| Invoke_mintCompressedNFT (connection : Connection) (payer : Keypair)
    (treeAddress : PublicKey)
| Invoke_transferCompressedNFT (connection : Connection) (assetId : PublicKey)
    (sender receiver : Keypair)
| Invoke_burnCompressedNFT (connection : Connection) (assetId : PublicKey)
    (payer : Keypair).

(** The run of an invocation, its return value dropped. *)
Definition invoke (i : Invocation) : M unit :=
  match i with
  | Invoke_createTree connection payer maxDepthSizePair canopyDepth =>
      bind (createTree connection payer maxDepthSizePair canopyDepth)
        (fun _ => ret tt)
  | Invoke_mintCompressedNFT connection payer treeAddress =>
      bind (mintCompressedNFT connection payer treeAddress) (fun _ => ret tt)
  | Invoke_transferCompressedNFT connection assetId sender receiver =>
      transferCompressedNFT connection assetId sender receiver
  | Invoke_burnCompressedNFT connection assetId payer =>
      burnCompressedNFT connection assetId payer
  end.

(** The message each phase passes to [console.error]. *)
Definition failure_message (i : Invocation) : string :=
  match i with
  | Invoke_createTree _ _ _ _ => LF ++ "Failed to create merkle tree:"
  | Invoke_mintCompressedNFT _ _ _ => LF ++ "Failed to mint compressed NFT:"
  | Invoke_transferCompressedNFT _ _ _ _ => LF ++ "Failed to transfer nft:"
  | Invoke_burnCompressedNFT _ _ _ => LF ++ "Failed to burn NFT:"
  end%string.

Definition is_createAllocTreeIx (c : Call) : bool :=
  match c with
  | Call_createAllocTreeIx _ _ _ _ _ => true
  | _ => false
  end.

Definition is_airdropSolIfNeeded (c : Call) : bool :=
  match c with
  | Call_airdropSolIfNeeded _ => true
  | _ => false
  end.

(** ** Properties of a computation, for every state of the world *)

(** What follows an entry of [failures], [rejections] or [confirmations]
    once more events are appended to the trace. *)
Definition followed_by {X} (later : list Event) (entry : X * list Event)
    : X * list Event :=
  (fst entry, snd entry ++ later).

(** A failure ends the computation with that very error, and no request is
    issued after it. *)
Definition fails_fast {A} (m : M A) : Prop :=
  forall w,
    match outcome_of (m w) with
    | Ok _ => failures (trace_of (m w)) = []
    | Throw e =>
        forall e' post,
          In (e', post) (failures (trace_of (m w))) -> e' = e /\ issued post = []
    end.

(** The awaited requests of the computation take turns, and none is in
    flight when it ends. *)
Definition settled {A} (m : M A) : Prop :=
  forall w, flow Idle (trace_of (m w)) = Some Idle.

(** Every request the computation issues satisfies [P]. *)
Definition calls_satisfy {A} (P : Call -> Prop) (m : M A) : Prop :=
  forall w, Forall P (issued (trace_of (m w))).

(** The tree parameters of [main], read off a request. *)
Definition fixed_tree_parameters (c : Call) : Prop :=
  match c with
  | Call_createAllocTreeIx _ _ _ depthSizePair canopyDepth =>
      depthSizePair = {| maxDepth := 3; maxBufferSize := 8 |} /\ canopyDepth = 0
  | Call_sendAndConfirmTransaction _ tx _ _ =>
      forall accounts args programId,
        In (createCreateTreeInstruction accounts args programId) (instructions tx) ->
        args = {| CreateTree.maxBufferSize := 8; CreateTree.maxDepth := 3;
                  CreateTree.public := false |} /\
        CreateTree.treeCreator accounts = CreateTree.payer accounts /\
        feePayer tx = Some (CreateTree.payer accounts)
  | _ => True
  end.

(** A request that submits no mint instruction. *)
Definition mints_nothing (c : Call) : Prop :=
  match c with
  | Call_sendAndConfirmTransaction _ tx _ _ =>
      forall accounts args, ~ In (createMintV1Instruction accounts args) (instructions tx)
  | _ => True
  end.

(** Every mint instruction of a request goes to [treeAddress], under the
    authority derived from it. *)
Definition mints_into (treeAddress : PublicKey) (c : Call) : Prop :=
  match c with
  | Call_sendAndConfirmTransaction _ tx _ _ =>
      forall accounts args,
        In (createMintV1Instruction accounts args) (instructions tx) ->
        MintV1.merkleTree accounts = treeAddress /\
        MintV1.treeAuthority accounts =
          fst (findProgramAddressSync [toBuffer treeAddress] BUBBLEGUM_PROGRAM_ID)
  | _ => True
  end.

(** A request of the transfer phase is signed by the sender alone, and its
    transfer instruction hands the leaf to the receiver. *)
Definition transfers_between (sender receiver : Keypair) (c : Call) : Prop :=
  match c with
  | Call_sendAndConfirmTransaction _ tx signers _ =>
      signers = [sender] /\
      feePayer tx = Some (publicKey sender) /\
      forall accounts args programId,
        In (createTransferInstruction accounts args programId) (instructions tx) ->
        Transfer.newLeafOwner accounts = publicKey receiver
  | _ => True
  end.

End Observations.

(** ** The earlier version of the script *)

(** The second source file holds an earlier [main]: it loads the two wallets
    and calls [airdropSolIfNeeded], again without awaiting it, and stops
    there. *)
Module Part_000.
Section Script.
Context {SDK : Sdk} {WORLD : World}.

Definition main : M unit :=
  let connection := new_Connection (clusterApiUrl "devnet") "confirmed" in
  bind (await (getOrCreateKeypair "Wallet_1")) (fun wallet =>
  bind (await (getOrCreateKeypair "Wallet_2")) (fun wallet2 =>
  detached (airdropSolIfNeeded (publicKey wallet)))).

End Script.
End Part_000.

(** ** More readings of a run *)

Section Submissions.
Context {SDK : Sdk} {WORLD : World}.

Definition is_submission (c : Call) : bool :=
  match c with
  | Call_sendAndConfirmTransaction _ _ _ _ => true
  | _ => false
  end.

(** The transactions a trace submits, in order. *)
Definition submissions (tr : list Event) : list Call :=
  filter is_submission (issued tr).

Definition phase_of (i : Invocation) : Phase :=
  match i with
  | Invoke_createTree _ _ _ _ => Phase_createTree
  | Invoke_mintCompressedNFT _ _ _ => Phase_mint
  | Invoke_transferCompressedNFT _ _ _ _ => Phase_transfer
  | Invoke_burnCompressedNFT _ _ _ => Phase_burn
  end.

(** The wallet an invocation pays and signs with. *)
Definition caller (i : Invocation) : Keypair :=
  match i with
  | Invoke_createTree _ payer _ _ => payer
  | Invoke_mintCompressedNFT _ payer _ => payer
  | Invoke_transferCompressedNFT _ _ sender _ => sender
  | Invoke_burnCompressedNFT _ _ payer => payer
  end.

Definition connection_of (i : Invocation) : Connection :=
  match i with
  | Invoke_createTree connection _ _ _ => connection
  | Invoke_mintCompressedNFT connection _ _ => connection
  | Invoke_transferCompressedNFT connection _ _ _ => connection
  | Invoke_burnCompressedNFT connection _ _ => connection
  end.

(** A computation that completes has submitted the instructions [L], in
    this order; one that fails has submitted the first few of them. *)
Definition submits_within {A} (L : list Phase) (m : M A) : Prop :=
  forall w,
    match outcome_of (m w) with
    | Ok _ => submitted_phases (trace_of (m w)) = L
    | Throw _ => exists rest, submitted_phases (trace_of (m w)) ++ rest = L
    end.

(** How many proof nodes [slice(0, length - canopyDepth)] keeps: a canopy
    deeper than the proof is long makes the end index negative, which counts
    from the end of the array. *)
Definition nodes_kept (len : nat) (canopyDepth : Z) : nat :=
  Z.to_nat
    (if Z.of_nat len <? canopyDepth
     then Z.max (2 * Z.of_nat len - canopyDepth) 0
     else Z.of_nat len - canopyDepth).

(** Tree, authority, root, data hash and creator hash of a transfer or burn
    instruction. *)
Definition tree_fields (ix : TransactionInstruction)
    : option (PublicKey * PublicKey * list Byte.byte * list Byte.byte * list Byte.byte) :=
  match ix with
  | createTransferInstruction accounts args _ =>
      Some (Transfer.merkleTree accounts, Transfer.treeAuthority accounts,
            Transfer.root args, Transfer.dataHash args, Transfer.creatorHash args)
  | createBurnInstruction accounts args _ =>
      Some (Burn.merkleTree accounts, Burn.treeAuthority accounts,
            Burn.root args, Burn.dataHash args, Burn.creatorHash args)
  | _ => None
  end.

(** Every create-tree and every mint instruction of a request names
    [treeAddress] as its tree and the address derived from it as its
    authority. *)
Definition uses_tree (treeAddress : PublicKey) (c : Call) : Prop :=
  match c with
  | Call_sendAndConfirmTransaction _ tx _ _ =>
      (forall accounts args programId,
          In (createCreateTreeInstruction accounts args programId) (instructions tx) ->
          CreateTree.merkleTree accounts = treeAddress /\
          CreateTree.treeAuthority accounts =
            fst (findProgramAddressSync [toBuffer treeAddress] BUBBLEGUM_PROGRAM_ID)) /\
      (forall accounts args,
          In (createMintV1Instruction accounts args) (instructions tx) ->
          MintV1.merkleTree accounts = treeAddress /\
          MintV1.treeAuthority accounts =
            fst (findProgramAddressSync [toBuffer treeAddress] BUBBLEGUM_PROGRAM_ID))
  | _ => True
  end.

(** What a request of [main] does with the two wallets: the first pays,
    owns every minted leaf and is its delegate; the second receives every
    transferred leaf. *)
Definition uses_wallets (wallet wallet2 : Keypair) (c : Call) : Prop :=
  match c with
  | Call_sendAndConfirmTransaction _ tx signers _ =>
      feePayer tx = Some (publicKey wallet) /\
      In wallet signers /\
      (forall accounts args,
          In (createMintV1Instruction accounts args) (instructions tx) ->
          MintV1.leafOwner accounts = publicKey wallet /\
          MintV1.leafDelegate accounts = publicKey wallet /\
          MintV1.treeDelegate accounts = publicKey wallet) /\
      (forall accounts args programId,
          In (createTransferInstruction accounts args programId) (instructions tx) ->
          Transfer.newLeafOwner accounts = publicKey wallet2)
  | _ => True
  end.

(** A request with the wallet-dependent parts of a submission left out:
    what is asked of the indexing API and the node, and what a transfer or
    burn instruction says about the leaf, the tree and the proof. *)
Inductive Outline : Type :=
| Asks (c : Call)
| Submits
    (leaves : list (option (PublicKey * PublicKey * Z * Z)))
    (trees : list (option (PublicKey * PublicKey * list Byte.byte
                           * list Byte.byte * list Byte.byte)))
    (paths : list (option (list AccountMeta))).

Definition outline (c : Call) : Outline :=
  match c with
  | Call_sendAndConfirmTransaction _ tx _ _ =>
      Submits (map leaf_fields (instructions tx))
              (map tree_fields (instructions tx))
              (map remaining_accounts (instructions tx))
  | _ => Asks c
  end.

End Submissions.

(** ** A concrete SDK and a family of concrete environments

    Keys are strings, a keypair is the name of its wallet, and the state of
    the world is the number of calls answered so far.  A [Scenario] fixes
    which call (if any) is rejected and what the indexing API and the tree
    account hold. *)

Module Demo.

Definition invalid_key : JsError := "Invalid public key input".

#[export] Instance sdk : Sdk := {|
  PublicKey := string;
  Keypair := string;
  publicKey := fun k => ("pk:" ++ k)%string;
  toBase58 := fun pk => pk;
  toBuffer := list_byte_of_string;
  toBytes := list_byte_of_string;
  new_PublicKey := fun s =>
    match s with
    | EmptyString => Throw invalid_key
    | _ => Ok s
    end;
  findProgramAddressSync := fun seeds programId =>
    ((programId ++ "/" ++ string_of_list_byte (concat seeds))%string, 255);
  clusterApiUrl := fun cluster => ("https://api." ++ cluster ++ ".solana.com")%string;
  trim := fun s => s;
  SPL_ACCOUNT_COMPRESSION_PROGRAM_ID := "cmtDvXumGCrqC1Age74AVPhSRVXJMd8PJS91L8KbNCK";
  SPL_NOOP_PROGRAM_ID := "noopb9bkMVfRPU8AsbpTUg8AQkHtKwMYZiFUjNRtMmV";
  BUBBLEGUM_PROGRAM_ID := "BGUMAp9Gq7iTEuizy4pqaxsTyUCBK68MDfK752saRPUY";
  AllocTreeInstruction := Z;
  ConcurrentMerkleTreeAccount := string * Z;
  getAuthority := fst;
  getCanopyDepth := snd;
  MetadataArgs := string;
  createCompressedNFTMetadata := fun creator => ("cNFT by " ++ creator)%string
|}.

Record Scenario : Type := {
  rejected : option nat;
  canopy : Z;
  nodes : list string;
  asset_delegate : option string;
  proof_first : bool
}.

Definition boom : JsError := "request failed".

Definition reply {A} (s : Scenario) (a : A) (w : nat) : Outcome A * nat :=
  match rejected s with
  | Some n => if Nat.eqb n w then (Throw boom, S w) else (Ok a, S w)
  | None => (Ok a, S w)
  end.

Definition signature_at (w : nat) : string :=
  ("sig" ++ NilEmpty.string_of_uint (Nat.to_uint w))%string.

#[local] Instance world (s : Scenario) : World := {|
  W := nat;
  io_getOrCreateKeypair := fun name w => reply s name w;
  io_airdropSolIfNeeded := fun _ w => reply s tt w;
  io_generate := fun w => ("tree", w);
  io_createAllocTreeIx := fun _ _ _ _ _ w => reply s 1000 w;
  io_sendAndConfirmTransaction := fun _ _ _ _ w => reply s (signature_at w) w;
  io_extractAssetId := fun _ sig _ w => reply s ("asset of " ++ sig)%string w;
  io_getAsset := fun _ w =>
    reply s
      {| compression :=
           {| tree := "pk:tree"; data_hash := "dataHash";
              creator_hash := "creatorHash"; leaf_id := Z.of_nat w |};
         ownership := {| owner := "pk:Wallet_1"; delegate := asset_delegate s |} |}
      w;
  io_getAssetProof := fun _ w =>
    reply s {| proof := nodes s; root := "rootHash" |} w;
  io_fromAccountAddress := fun _ _ w => reply s ("authority", canopy s) w;
  settles_second_first := fun _ => proof_first s
|}.

(** Nothing is rejected; a tree of depth 3 without canopy. *)
Definition fair_weather : Scenario :=
  {| rejected := None; canopy := 0; nodes := ["n1"; "n2"; "n3"];
     asset_delegate := None; proof_first := false |}.

(** The [n]-th call of the run is rejected. *)
Definition rejecting (n : nat) : Scenario :=
  {| rejected := Some n; canopy := 0; nodes := ["n1"; "n2"; "n3"];
     asset_delegate := None; proof_first := false |}.

(** The tree account reports a canopy deeper than the proof is long. *)
Definition deep_canopy : Scenario :=
  {| rejected := None; canopy := 4; nodes := ["n1"; "n2"; "n3"];
     asset_delegate := None; proof_first := false |}.

Definition devnet : Connection :=
  new_Connection "https://api.devnet.solana.com" "confirmed".

(** The two wallets of the script. *)
Definition wallet_1 : string := "Wallet_1".

Definition wallet_2 : string := "Wallet_2".

(** The depth and buffer size [main] asks for. *)
Definition three_eight : ValidDepthSizePair := {| maxDepth := 3; maxBufferSize := 8 |}.

(** One invocation of each kind. *)
Definition transfer_of_asset : Invocation :=
  Invoke_transferCompressedNFT devnet "asset" wallet_1 wallet_2.

Definition tree_creation : Invocation :=
  Invoke_createTree devnet wallet_1 three_eight 0.

Definition minting : Invocation :=
  Invoke_mintCompressedNFT devnet wallet_1 "pk:tree".

(** The accounts and arguments of the mint instruction [main] builds in
    these worlds. *)
Definition mint_accounts : MintV1.Accounts :=
  {| MintV1.payer := "pk:Wallet_1";
     MintV1.merkleTree := "pk:tree";
     MintV1.treeAuthority := "BGUMAp9Gq7iTEuizy4pqaxsTyUCBK68MDfK752saRPUY/pk:tree";
     MintV1.treeDelegate := "pk:Wallet_1";
     MintV1.leafOwner := "pk:Wallet_1";
     MintV1.leafDelegate := "pk:Wallet_1";
     MintV1.compressionProgram := "cmtDvXumGCrqC1Age74AVPhSRVXJMd8PJS91L8KbNCK";
     MintV1.logWrapper := "noopb9bkMVfRPU8AsbpTUg8AQkHtKwMYZiFUjNRtMmV" |}.

Definition mint_args : MintV1.Args :=
  {| MintV1.message := "cNFT by pk:Wallet_1" |}.

(** What the indexing API and the node answer in these worlds. *)
Definition fetched_proof : AssetProofData :=
  {| proof := ["n1"; "n2"; "n3"]; root := "rootHash" |}.

Definition whole_path : list AccountMeta :=
  [read_only "n1"; read_only "n2"; read_only "n3"].

Definition tree_without_canopy : ConcurrentMerkleTreeAccount := ("authority", 0).

(** The last proof node is no key, and the canopy cut would drop it. *)
Definition bad_last_node : Scenario :=
  {| rejected := None; canopy := 1; nodes := ["n1"; "n2"; EmptyString];
     asset_delegate := None; proof_first := false |}.

Definition proof_with_bad_node : AssetProofData :=
  {| proof := ["n1"; "n2"; EmptyString]; root := "rootHash" |}.

Definition tree_with_deep_canopy : ConcurrentMerkleTreeAccount := ("authority", 4).

Definition two_nodes : list AccountMeta := [read_only "n1"; read_only "n2"].

(** The accounts and arguments of the create-tree instruction [main] builds
    in these worlds. *)
Definition create_accounts : CreateTree.Accounts :=
  {| CreateTree.treeAuthority := "BGUMAp9Gq7iTEuizy4pqaxsTyUCBK68MDfK752saRPUY/pk:tree";
     CreateTree.merkleTree := "pk:tree";
     CreateTree.payer := "pk:Wallet_1";
     CreateTree.treeCreator := "pk:Wallet_1";
     CreateTree.logWrapper := "noopb9bkMVfRPU8AsbpTUg8AQkHtKwMYZiFUjNRtMmV";
     CreateTree.compressionProgram := "cmtDvXumGCrqC1Age74AVPhSRVXJMd8PJS91L8KbNCK" |}.

Definition create_args : CreateTree.Args :=
  {| CreateTree.maxBufferSize := 8; CreateTree.maxDepth := 3;
     CreateTree.public := false |}.

(** The transaction [createTree] submits in these worlds: the allocation
    the node answered, then the create-tree instruction. *)
Definition create_transaction : Transaction :=
  {| instructions :=
       [Ix_alloc 1000;
        createCreateTreeInstruction create_accounts create_args
          "BGUMAp9Gq7iTEuizy4pqaxsTyUCBK68MDfK752saRPUY"];
     feePayer := Some "pk:Wallet_1" |}.

(** The asset has a delegate of its own. *)
Definition with_delegate : Scenario :=
  {| rejected := None; canopy := 0; nodes := ["n1"; "n2"; "n3"];
     asset_delegate := Some "pk:Delegate"; proof_first := true |}.

Definition burn_of_asset : Invocation :=
  Invoke_burnCompressedNFT devnet "asset" wallet_1.

End Demo.

(** * Properties *)

Section Properties.
Context {SDK : Sdk} {WORLD : World}.

(** ** The monad *)

Lemma bind_inv {A B} (m : M A) (f : A -> M B) w r w' tr :
  bind m f w = (r, w', tr) ->
  (exists e, m w = (Throw e, w', tr) /\ r = Throw e) \/
  (exists a w1 t1 t2,
      m w = (Ok a, w1, t1) /\ f a w1 = (r, w', t2) /\ tr = t1 ++ t2).
Proof.
  unfold bind. destruct (m w) as [[[a | e] w1] t1].
  - destruct (f a w1) as [[r2 w2] t2] eqn:Ef. intros E.
    injection E as <- <- <-. right. exists a, w1, t1, t2. auto.
  - intros E. injection E as <- <- <-. left. exists e. auto.
Qed.

Lemma await_inv {A} (p : Promise A) w r w' tr :
  await p w = (r, w', tr) ->
  answer p w = (r, w') /\
  tr = [Issue (call p); Settle (call p) (outcome_map (logged p) r)].
Proof.
  unfold await. destruct (answer p w) as [o w1]. intros E.
  injection E as <- <- <-. auto.
Qed.

(** One step of a symbolic run: name the next answer of the world, or the
    next result of a throwing SDK function. *)
Ltac atomic x :=
  lazymatch x with
  | context [match _ with (_, _) => _ end] => fail
  | context [match _ with Ok _ => _ | Throw _ => _ end] => fail
  | context [if _ then _ else _] => fail
  | _ => idtac
  end.

Ltac next_answer :=
  match goal with
  | |- context [if settles_second_first ?w then _ else _] =>
      destruct (settles_second_first w) eqn:?
  | |- context [match ?x with (_, _) => _ end] =>
      atomic x;
      match type of x with
      | (Outcome _ * _)%type => destruct x as [[? | ?] ?] eqn:?
      | (_ * _)%type => destruct x as [? ?] eqn:?
      end
  | |- context [match ?x with Ok _ => _ | Throw _ => _ end] =>
      atomic x; destruct x as [? | ?] eqn:?
  end.

Ltac run_script :=
  cbv beta iota zeta delta
    [main transferCompressedNFT burnCompressedNFT mintCompressedNFT createTree
     try_catch bind ret throw lift await await_Promise_all detached
     console_log console_error Keypair_generate
     heliusApi_getAsset heliusApi_getAssetProof extractAssetId
     createAllocTreeIx sendAndConfirmTransaction fromAccountAddress
     getOrCreateKeypair airdropSolIfNeeded call answer logged invoke
     trace_of outcome_of fst snd];
  repeat (next_answer; cbn [app outcome_map fst snd]).

(** ** Traces under concatenation *)

Lemma issued_app (a b : list Event) : issued (a ++ b) = issued a ++ issued b.
Proof.
  induction a as [| [c | c o | args | msg e] a IH]; cbn; congruence.
Qed.

Lemma failures_app (a b : list Event) :
  failures (a ++ b) = map (followed_by b) (failures a) ++ failures b.
Proof.
  induction a as [| [c | c [r | e] | args | msg e] a IH];
    cbn; rewrite ?IH; reflexivity.
Qed.

Lemma flow_app (f : Flight) (a b : list Event) :
  flow f (a ++ b) =
  match flow f a with
  | Some f' => flow f' b
  | None => None
  end.
Proof.
  revert f. induction a as [| ev a IH]; intros f; cbn.
  - reflexivity.
  - destruct (flight_step f ev); [apply IH | reflexivity].
Qed.

(** ** Failing fast, rule by rule *)

Lemma fails_fast_ret {A} (a : A) : fails_fast (ret a).
Proof. intros w. reflexivity. Qed.

Lemma fails_fast_lift {A} (o : Outcome A) : fails_fast (lift o).
Proof. intros w. destruct o; cbn; [reflexivity | intros ? ? []]. Qed.

Lemma fails_fast_console_log args : fails_fast (console_log args).
Proof. intros w. reflexivity. Qed.

Lemma fails_fast_generate : fails_fast Keypair_generate.
Proof. intros w. unfold Keypair_generate. destruct (io_generate w). reflexivity. Qed.

Lemma fails_fast_await {A} (p : Promise A) : fails_fast (await p).
Proof.
  intros w. unfold await. destruct (answer p w) as [[a | e] w1]; cbn.
  - reflexivity.
  - intros e' post [E | []]. injection E as <- <-. auto.
Qed.

Lemma fails_fast_detached {A} (p : Promise A) : fails_fast (detached p).
Proof. intros w. unfold detached. destruct (answer p w). reflexivity. Qed.

Lemma fails_fast_Promise_all {A B} (p : Promise A) (q : Promise B) :
  fails_fast (await_Promise_all p q).
Proof.
  intros w. unfold await_Promise_all.
  destruct (settles_second_first w).
  - destruct (answer q w) as [[b | e] w1]; [destruct (answer p w1) as [[a | e] w2] |];
      cbn; try reflexivity;
      intros e' post [E | []]; injection E as <- <-; auto.
  - destruct (answer p w) as [[a | e] w1]; [destruct (answer q w1) as [[b | e] w2] |];
      cbn; try reflexivity;
      intros e' post [E | []]; injection E as <- <-; auto.
Qed.

Lemma fails_fast_bind {A B} (m : M A) (f : A -> M B) :
  fails_fast m -> (forall a, fails_fast (f a)) -> fails_fast (bind m f).
Proof.
  intros Hm Hf w. specialize (Hm w). unfold bind.
  destruct (m w) as [[[a | e] w1] t1]; cbn in *.
  - specialize (Hf a w1). destruct (f a w1) as [[r w2] t2]; cbn in *.
    rewrite failures_app, Hm. exact Hf.
  - exact Hm.
Qed.

(** The handler every phase uses: report, then rethrow. *)
Lemma fails_fast_try_catch {A} (body : M A) (msg : string) :
  fails_fast body ->
  fails_fast
    (try_catch body (fun err => bind (console_error msg err) (fun _ => throw err))).
Proof.
  intros Hb w. specialize (Hb w). unfold try_catch.
  destruct (body w) as [[[a | e] w1] t1]; cbn in *.
  - exact Hb.
  - intros e' post Hin. rewrite failures_app in Hin.
    apply in_app_or in Hin. destruct Hin as [Hin | [E | []]].
    + apply in_map_iff in Hin. destruct Hin as [[e0 post0] [E Hin]].
      injection E as <- <-. destruct (Hb _ _ Hin) as [-> Hq].
      split; [reflexivity |]. cbn. rewrite issued_app, Hq. reflexivity.
    + injection E as <- <-. auto.
Qed.

Create HintDb fails_fast_db discriminated.
#[local] Hint Resolve fails_fast_ret fails_fast_lift fails_fast_console_log
  fails_fast_generate fails_fast_await fails_fast_detached
  fails_fast_Promise_all fails_fast_bind fails_fast_try_catch : fails_fast_db.
#[local] Hint Extern 1 (fails_fast (match ?x with (_, _) => _ end)) =>
  destruct x : fails_fast_db.
#[local] Hint Extern 2 (fails_fast _) => progress cbv zeta : fails_fast_db.

Lemma createTree_fails_fast conn payer pair canopy :
  fails_fast (createTree conn payer pair canopy).
Proof. unfold createTree. auto 40 with fails_fast_db. Qed.

Lemma mintCompressedNFT_fails_fast conn payer treeAddress :
  fails_fast (mintCompressedNFT conn payer treeAddress).
Proof. unfold mintCompressedNFT. auto 40 with fails_fast_db. Qed.

Lemma transferCompressedNFT_fails_fast conn assetId sender receiver :
  fails_fast (transferCompressedNFT conn assetId sender receiver).
Proof. unfold transferCompressedNFT. auto 60 with fails_fast_db. Qed.

Lemma burnCompressedNFT_fails_fast conn assetId payer :
  fails_fast (burnCompressedNFT conn assetId payer).
Proof. unfold burnCompressedNFT. auto 60 with fails_fast_db. Qed.

#[local] Hint Resolve createTree_fails_fast mintCompressedNFT_fails_fast
  transferCompressedNFT_fails_fast burnCompressedNFT_fails_fast : fails_fast_db.

Lemma main_fails_fast : fails_fast main.
Proof. unfold main. auto 40 with fails_fast_db. Qed.

(** ** Taking turns, rule by rule *)

Lemma settled_ret {A} (a : A) : settled (ret a).
Proof. intros w. reflexivity. Qed.

Lemma settled_throw {A} (e : JsError) : settled (@throw _ _ A e).
Proof. intros w. reflexivity. Qed.

Lemma settled_lift {A} (o : Outcome A) : settled (lift o).
Proof. intros w. reflexivity. Qed.

Lemma settled_console_log args : settled (console_log args).
Proof. intros w. reflexivity. Qed.

Lemma settled_console_error msg e : settled (console_error msg e).
Proof. intros w. reflexivity. Qed.

Lemma settled_generate : settled Keypair_generate.
Proof. intros w. unfold Keypair_generate. destruct (io_generate w). reflexivity. Qed.

Lemma settled_await {A} (p : Promise A) :
  is_airdropSolIfNeeded (call p) = false -> settled (await p).
Proof.
  intros Hc w. unfold await. destruct (answer p w) as [[a | e] w1]; cbn;
    destruct (call p); cbn in *; congruence.
Qed.

Lemma settled_detached {A} (p : Promise A) :
  is_airdropSolIfNeeded (call p) = true -> settled (detached p).
Proof.
  intros Hc w. unfold detached. destruct (answer p w) as [o w1]; cbn.
  destruct (call p); cbn in *; congruence.
Qed.

Lemma settled_Promise_all {A B} (p : Promise A) (q : Promise B) :
  joins (call p) (call q) = true -> settled (await_Promise_all p q).
Proof.
  intros Hj w. unfold await_Promise_all.
  destruct (call p) as [| | | | | m1 id1 |]; try discriminate Hj.
  destruct (call q) as [| | | | | m2 id2 |]; try discriminate Hj.
  destruct (settles_second_first w).
  - destruct (answer q w) as [[b | e] w1]; [destruct (answer p w1) as [[a | e] w2] |];
      cbn -[joins]; rewrite Hj; reflexivity.
  - destruct (answer p w) as [[a | e] w1]; [destruct (answer q w1) as [[b | e] w2] |];
      cbn -[joins]; rewrite Hj; reflexivity.
Qed.

Lemma settled_bind {A B} (m : M A) (f : A -> M B) :
  settled m -> (forall a, settled (f a)) -> settled (bind m f).
Proof.
  intros Hm Hf w. specialize (Hm w). unfold bind.
  destruct (m w) as [[[a | e] w1] t1]; cbn in *.
  - specialize (Hf a w1). destruct (f a w1) as [[r w2] t2]; cbn in *.
    rewrite flow_app, Hm. exact Hf.
  - exact Hm.
Qed.

Lemma settled_try_catch {A} (body : M A) (handler : JsError -> M A) :
  settled body -> (forall e, settled (handler e)) -> settled (try_catch body handler).
Proof.
  intros Hb Hh w. specialize (Hb w). unfold try_catch.
  destruct (body w) as [[[a | e] w1] t1]; cbn in *.
  - exact Hb.
  - specialize (Hh e w1). destruct (handler e w1) as [[r w2] t2]; cbn in *.
    rewrite flow_app, Hb. exact Hh.
Qed.

Lemma joins_indexing_requests (id : string) :
  joins (call (heliusApi_getAsset id)) (call (heliusApi_getAssetProof id)) = true.
Proof. cbn -[String.eqb]. rewrite !String.eqb_refl. reflexivity. Qed.

Create HintDb settled_db discriminated.
#[local] Hint Resolve settled_ret settled_throw settled_lift settled_console_log
  settled_console_error settled_generate settled_await settled_detached
  settled_Promise_all settled_bind settled_try_catch joins_indexing_requests
  : settled_db.
#[local] Hint Extern 1 (settled (match ?x with (_, _) => _ end)) =>
  destruct x : settled_db.
#[local] Hint Extern 2 (settled _) => progress cbv zeta : settled_db.
#[local] Hint Extern 1 (is_airdropSolIfNeeded _ = _) => reflexivity : settled_db.

Lemma createTree_settled conn payer pair canopy :
  settled (createTree conn payer pair canopy).
Proof. unfold createTree. auto 40 with settled_db. Qed.

Lemma mintCompressedNFT_settled conn payer treeAddress :
  settled (mintCompressedNFT conn payer treeAddress).
Proof. unfold mintCompressedNFT. auto 40 with settled_db. Qed.

Lemma transferCompressedNFT_settled conn assetId sender receiver :
  settled (transferCompressedNFT conn assetId sender receiver).
Proof. unfold transferCompressedNFT. auto 60 with settled_db. Qed.

Lemma burnCompressedNFT_settled conn assetId payer :
  settled (burnCompressedNFT conn assetId payer).
Proof. unfold burnCompressedNFT. auto 60 with settled_db. Qed.

#[local] Hint Resolve createTree_settled mintCompressedNFT_settled
  transferCompressedNFT_settled burnCompressedNFT_settled : settled_db.

Lemma main_settled : settled main.
Proof. unfold main. auto 40 with settled_db. Qed.

(** ** What is requested, rule by rule *)

Section Requests.
Variable P : Call -> Prop.

Lemma calls_ret {A} (a : A) : calls_satisfy P (ret a).
Proof. intros w. constructor. Qed.

Lemma calls_throw {A} (e : JsError) : calls_satisfy P (@throw _ _ A e).
Proof. intros w. constructor. Qed.

Lemma calls_lift {A} (o : Outcome A) : calls_satisfy P (lift o).
Proof. intros w. constructor. Qed.

Lemma calls_console_log args : calls_satisfy P (console_log args).
Proof. intros w. constructor. Qed.

Lemma calls_console_error msg e : calls_satisfy P (console_error msg e).
Proof. intros w. constructor. Qed.

Lemma calls_generate : calls_satisfy P Keypair_generate.
Proof. intros w. unfold Keypair_generate. destruct (io_generate w). constructor. Qed.

Lemma calls_await {A} (p : Promise A) : P (call p) -> calls_satisfy P (await p).
Proof.
  intros Hc w. unfold await. destruct (answer p w) as [o w1]; cbn. auto.
Qed.

Lemma calls_detached {A} (p : Promise A) : P (call p) -> calls_satisfy P (detached p).
Proof.
  intros Hc w. unfold detached. destruct (answer p w) as [o w1]; cbn. auto.
Qed.

Lemma calls_Promise_all {A B} (p : Promise A) (q : Promise B) :
  P (call p) -> P (call q) -> calls_satisfy P (await_Promise_all p q).
Proof.
  intros Hp Hq w. unfold await_Promise_all.
  destruct (settles_second_first w).
  - destruct (answer q w) as [[b | e] w1]; [destruct (answer p w1) as [[a | e] w2] |];
      cbn; auto.
  - destruct (answer p w) as [[a | e] w1]; [destruct (answer q w1) as [[b | e] w2] |];
      cbn; auto.
Qed.

Lemma calls_bind {A B} (m : M A) (f : A -> M B) :
  calls_satisfy P m -> (forall a, calls_satisfy P (f a)) -> calls_satisfy P (bind m f).
Proof.
  intros Hm Hf w. specialize (Hm w). unfold bind.
  destruct (m w) as [[[a | e] w1] t1]; cbn in *.
  - specialize (Hf a w1). destruct (f a w1) as [[r w2] t2]; cbn in *.
    rewrite issued_app. apply Forall_app. auto.
  - exact Hm.
Qed.

Lemma calls_try_catch {A} (body : M A) (handler : JsError -> M A) :
  calls_satisfy P body -> (forall e, calls_satisfy P (handler e)) ->
  calls_satisfy P (try_catch body handler).
Proof.
  intros Hb Hh w. specialize (Hb w). unfold try_catch.
  destruct (body w) as [[[a | e] w1] t1]; cbn in *.
  - exact Hb.
  - specialize (Hh e w1). destruct (handler e w1) as [[r w2] t2]; cbn in *.
    rewrite issued_app. apply Forall_app. auto.
Qed.

End Requests.

(** A side condition on one request: compute it, then read the instructions
    of the transaction one by one. *)
Ltac check_request :=
  cbn; try exact I; try (split; reflexivity);
  intros;
  repeat match goal with
    | H : _ \/ _ |- _ => destruct H
    | H : False |- _ => destruct H
    | H : _ = _ |- _ => discriminate H
    | H : _ = _ |- _ => injection H as <- <- <-
    | H : _ = _ |- _ => injection H as <- <-
    | |- ~ _ => intro
    end;
  cbn;
  repeat match goal with
    | H : findProgramAddressSync _ _ = _ |- _ => rewrite H
    end;
  auto.

Create HintDb calls_db discriminated.
#[local] Hint Resolve calls_ret calls_throw calls_lift calls_console_log
  calls_console_error calls_generate calls_await calls_detached
  calls_Promise_all calls_bind calls_try_catch : calls_db.
#[local] Hint Extern 1 (calls_satisfy _ (match ?x with (_, _) => _ end)) =>
  destruct x eqn:? : calls_db.
#[local] Hint Extern 2 (calls_satisfy _ _) => progress cbv zeta : calls_db.
#[local] Hint Extern 1 (fixed_tree_parameters _) => solve [check_request] : calls_db.
#[local] Hint Extern 1 (mints_nothing _) => solve [check_request] : calls_db.
#[local] Hint Extern 1 (mints_into _ _) => solve [check_request] : calls_db.
#[local] Hint Extern 1 (transfers_between _ _ _) =>
  solve [cbn; try exact I; repeat split; check_request] : calls_db.

Lemma createTree_parameters conn payer :
  calls_satisfy fixed_tree_parameters
    (createTree conn payer {| maxDepth := 3; maxBufferSize := 8 |} 0).
Proof. unfold createTree. auto 40 with calls_db. Qed.

Lemma mintCompressedNFT_parameters conn payer treeAddress :
  calls_satisfy fixed_tree_parameters (mintCompressedNFT conn payer treeAddress).
Proof. unfold mintCompressedNFT. auto 40 with calls_db. Qed.

Lemma transferCompressedNFT_parameters conn assetId sender receiver :
  calls_satisfy fixed_tree_parameters
    (transferCompressedNFT conn assetId sender receiver).
Proof. unfold transferCompressedNFT. auto 60 with calls_db. Qed.

Lemma burnCompressedNFT_parameters conn assetId payer :
  calls_satisfy fixed_tree_parameters (burnCompressedNFT conn assetId payer).
Proof. unfold burnCompressedNFT. auto 60 with calls_db. Qed.

Lemma main_parameters : calls_satisfy fixed_tree_parameters main.
Proof.
  unfold main.
  auto 40 using createTree_parameters, mintCompressedNFT_parameters,
    transferCompressedNFT_parameters, burnCompressedNFT_parameters with calls_db.
Qed.

(** ** The proof path *)

Lemma js_or_zero_id (n : Z) : js_or_zero n = n.
Proof.
  unfold js_or_zero. destruct (Z.eqb_spec n 0); congruence.
Qed.

Lemma js_slice_prefix {A} (n : Z) (l : list A) :
  0 <= n -> js_slice 0 n l = firstn (Z.to_nat n) l.
Proof.
  intros Hn. unfold js_slice. cbn [Z.ltb Z.compare].
  destruct (Z.ltb_spec n 0); [exfalso; lia |].
  rewrite (Z.min_l 0) by lia. cbn [Z.to_nat skipn]. rewrite Z.sub_0_r.
  destruct (Z.le_ge_cases n (Z.of_nat (length l))).
  - rewrite Z.min_l by lia. reflexivity.
  - rewrite Z.min_r by lia. rewrite Nat2Z.id.
    rewrite !firstn_all2 by lia. reflexivity.
Qed.

Lemma map_throwing_outcome_map {A B C} (g : A -> Outcome B) (f : B -> C)
    (l : list A) :
  map_throwing (fun a => outcome_map f (g a)) l =
  outcome_map (map f) (map_throwing g l).
Proof.
  induction l as [| a l IH]; cbn; [reflexivity |].
  destruct (g a); cbn; [| reflexivity].
  rewrite IH. destruct (map_throwing g l); reflexivity.
Qed.

Lemma map_throwing_length {A B} (g : A -> Outcome B) (l : list A) (bs : list B) :
  map_throwing g l = Ok bs -> length bs = length l.
Proof.
  revert bs. induction l as [| a l IH]; cbn; intros bs E.
  - injection E as <-. reflexivity.
  - destruct (g a); [| discriminate].
    destruct (map_throwing g l) as [bs' |]; [| discriminate].
    injection E as <-. cbn. f_equal. apply IH. reflexivity.
Qed.

Lemma proofPath_of_cut (nodes : list string) (canopyDepth : Z)
    (path : list AccountMeta) :
  proofPath_of nodes (js_or_zero canopyDepth) = Ok path ->
  canopyDepth <= Z.of_nat (length nodes) ->
  exists keys,
    map_throwing new_PublicKey nodes = Ok keys /\
    path =
      map read_only
        (firstn (Z.to_nat (Z.of_nat (length nodes) - canopyDepth)) keys).
Proof.
  unfold proofPath_of. rewrite js_or_zero_id.
  change (fun node : string =>
            outcome_map
              (fun pk => {| pubkey := pk; isSigner := false; isWritable := false |})
              (new_PublicKey node))
    with (fun node : string => outcome_map read_only (new_PublicKey node)).
  rewrite map_throwing_outcome_map.
  destruct (map_throwing new_PublicKey nodes) as [keys | e]; cbn; [| discriminate].
  intros E Hc. injection E as <-. exists keys. split; [reflexivity |].
  rewrite js_slice_prefix by lia. apply firstn_map.
Qed.

(** ** Where the mint instructions of [main] go *)

Lemma run_calls {A} (P : Call -> Prop) (m : M A) w r w' t :
  calls_satisfy P m -> m w = (r, w', t) -> Forall P (issued t).
Proof.
  intros Hm E. specialize (Hm w). rewrite E in Hm. exact Hm.
Qed.

Lemma createTree_mints_nothing conn payer pair canopy :
  calls_satisfy mints_nothing (createTree conn payer pair canopy).
Proof. unfold createTree. auto 40 with calls_db. Qed.

Lemma mintCompressedNFT_mints_into conn payer treeAddress :
  calls_satisfy (mints_into treeAddress) (mintCompressedNFT conn payer treeAddress).
Proof. unfold mintCompressedNFT. auto 40 with calls_db. Qed.

Lemma transferCompressedNFT_mints_into treeAddress conn assetId sender receiver :
  calls_satisfy (mints_into treeAddress)
    (transferCompressedNFT conn assetId sender receiver).
Proof. unfold transferCompressedNFT. auto 60 with calls_db. Qed.

Lemma burnCompressedNFT_mints_into treeAddress conn assetId payer :
  calls_satisfy (mints_into treeAddress) (burnCompressedNFT conn assetId payer).
Proof. unfold burnCompressedNFT. auto 60 with calls_db. Qed.

(** A run of [main] either ends before the tree exists, or splits at the
    run of [createTree] that returned the tree address. *)
Lemma main_splits_at_the_tree w r w' tr :
  main w = (r, w', tr) ->
  Forall mints_nothing (issued tr) \/
  exists wallet w0 w1 before created after treeAddress,
    createTree (new_Connection (clusterApiUrl "devnet") "confirmed") wallet
      {| maxDepth := 3; maxBufferSize := 8 |} 0 w0 = (Ok treeAddress, w1, created) /\
    tr = before ++ created ++ after /\
    Forall mints_nothing (issued (before ++ created)) /\
    Forall (mints_into treeAddress) (issued after).
Proof.
  unfold main. intros Hrun.
  apply bind_inv in Hrun as [(e & Hm & ->) | (wallet & w1 & t1 & t1' & Hm & Hrun & ->)].
  { left. apply (run_calls (P := mints_nothing)) in Hm; auto with calls_db. }
  apply (run_calls (P := mints_nothing)) in Hm; [| auto with calls_db].
  apply bind_inv in Hrun as [(e & Hm2 & ->) | (wallet2 & w2 & t2 & t2' & Hm2 & Hrun & ->)].
  { left. apply (run_calls (P := mints_nothing)) in Hm2; [| auto with calls_db].
    rewrite issued_app. apply Forall_app. auto. }
  apply (run_calls (P := mints_nothing)) in Hm2; [| auto with calls_db].
  apply bind_inv in Hrun as [(e & Hm3 & ->) | ([] & w3 & t3 & t3' & Hm3 & Hrun & ->)].
  { left. apply (run_calls (P := mints_nothing)) in Hm3; [| auto with calls_db].
    rewrite !issued_app, !Forall_app. auto. }
  apply (run_calls (P := mints_nothing)) in Hm3; [| auto with calls_db].
  apply bind_inv in Hrun as [(e & Hm4 & ->) | (treeAddress & w4 & t4 & t4' & Hm4 & Hrun & ->)].
  { left. eapply run_calls in Hm4; [| apply createTree_mints_nothing].
    rewrite !issued_app, !Forall_app. auto. }
  right. exists wallet, w3, w4, (t1 ++ t2 ++ t3), t4, t4', treeAddress.
  split; [exact Hm4 |]. split; [now rewrite <- !app_assoc |].
  pose proof Hm4 as Hc.
  eapply run_calls in Hc; [| apply createTree_mints_nothing].
  split; [rewrite !issued_app, !Forall_app; auto |].
  revert Hrun. apply run_calls.
  auto 40 using mintCompressedNFT_mints_into, transferCompressedNFT_mints_into,
    burnCompressedNFT_mints_into with calls_db.
Qed.

(** ** A run of [main] that completes *)

Lemma bind_inv_Ok {A B} (m : M A) (f : A -> M B) w b w' tr :
  bind m f w = (Ok b, w', tr) ->
  exists a w1 t1 t2,
    m w = (Ok a, w1, t1) /\ f a w1 = (Ok b, w', t2) /\ tr = t1 ++ t2.
Proof.
  intros Hrun. apply bind_inv in Hrun as [(e & _ & E) | Hrun]; [discriminate E | exact Hrun].
Qed.

Lemma submitted_phases_app (a b : list Event) :
  submitted_phases (a ++ b) = submitted_phases a ++ submitted_phases b.
Proof.
  unfold submitted_phases. rewrite issued_app. apply flat_map_app.
Qed.

Ltac completed_run :=
  intros Hrun; revert Hrun; run_script; intros Hrun;
  try discriminate Hrun; injection Hrun as <- <- <-; reflexivity.

Lemma createTree_submits conn payer pair canopy w a w' t :
  createTree conn payer pair canopy w = (Ok a, w', t) ->
  submitted_phases t = [Phase_createTree].
Proof. completed_run. Qed.

Lemma mintCompressedNFT_submits conn payer treeAddress w a w' t :
  mintCompressedNFT conn payer treeAddress w = (Ok a, w', t) ->
  submitted_phases t = [Phase_mint].
Proof. completed_run. Qed.

Lemma transferCompressedNFT_submits conn assetId sender receiver w a w' t :
  transferCompressedNFT conn assetId sender receiver w = (Ok a, w', t) ->
  submitted_phases t = [Phase_transfer].
Proof. completed_run. Qed.

Lemma burnCompressedNFT_submits conn assetId payer w a w' t :
  burnCompressedNFT conn assetId payer w = (Ok a, w', t) ->
  submitted_phases t = [Phase_burn].
Proof. completed_run. Qed.

Lemma transferCompressedNFT_between conn assetId sender receiver :
  calls_satisfy (transfers_between sender receiver)
    (transferCompressedNFT conn assetId sender receiver).
Proof. unfold transferCompressedNFT. auto 60 with calls_db. Qed.

(** ** The tree [createTree] creates *)

Lemma issued_bind_now {A B} (m : M A) (f : A -> M B) (w : W) (c : Call) :
  In c (issued (trace_of (m w))) -> In c (issued (trace_of (bind m f w))).
Proof.
  unfold bind. destruct (m w) as [[[a | e] w1] t1]; cbn; [| auto].
  destruct (f a w1) as [[r w2] t2]; cbn. intros Hin.
  rewrite issued_app. apply in_or_app. auto.
Qed.

Lemma issued_bind_later {A B} (m : M A) (f : A -> M B) (w w1 : W) (a : A)
    (t1 : list Event) (c : Call) :
  m w = (Ok a, w1, t1) ->
  In c (issued (trace_of (f a w1))) -> In c (issued (trace_of (bind m f w))).
Proof.
  unfold bind. intros ->. destruct (f a w1) as [[r w2] t2]; cbn. intros Hin.
  rewrite issued_app. apply in_or_app. auto.
Qed.

Lemma await_Ok {A} (p : Promise A) (w w1 : W) (a : A) :
  answer p w = (Ok a, w1) ->
  await p w = (Ok a, w1, [Issue (call p); Settle (call p) (Ok (logged p a))]).
Proof.
  unfold await. intros ->. reflexivity.
Qed.

Lemma detached_run {A} (p : Promise A) (w w1 : W) (o : Outcome A) :
  answer p w = (o, w1) -> detached p w = (Ok tt, w1, [Issue (call p)]).
Proof.
  unfold detached. intros ->. reflexivity.
Qed.

Lemma createTree_requests_the_allocation conn payer pair canopy w treeKeypair w1 :
  io_generate w = (treeKeypair, w1) ->
  In (Call_createAllocTreeIx conn (publicKey treeKeypair) (publicKey payer) pair canopy)
     (issued (trace_of (createTree conn payer pair canopy w))).
Proof.
  run_script.
  all: intros Hgen; injection Hgen as <- <-.
  all: cbn; auto.
Qed.

Lemma createTree_submits_the_creation
    conn payer pair canopy w treeKeypair w1 allocTreeIx w2 :
  io_generate w = (treeKeypair, w1) ->
  io_createAllocTreeIx conn (publicKey treeKeypair) (publicKey payer) pair canopy w1 =
    (Ok allocTreeIx, w2) ->
  In (Call_sendAndConfirmTransaction conn
        {| instructions :=
             [Ix_alloc allocTreeIx;
              createCreateTreeInstruction
                {| CreateTree.treeAuthority :=
                     fst (findProgramAddressSync [toBuffer (publicKey treeKeypair)]
                            BUBBLEGUM_PROGRAM_ID);
                   CreateTree.merkleTree := publicKey treeKeypair;
                   CreateTree.payer := publicKey payer;
                   CreateTree.treeCreator := publicKey payer;
                   CreateTree.logWrapper := SPL_NOOP_PROGRAM_ID;
                   CreateTree.compressionProgram :=
                     SPL_ACCOUNT_COMPRESSION_PROGRAM_ID |}
                {| CreateTree.maxBufferSize := maxBufferSize pair;
                   CreateTree.maxDepth := maxDepth pair;
                   CreateTree.public := false |}
                BUBBLEGUM_PROGRAM_ID];
           feePayer := Some (publicKey payer) |}
        [treeKeypair; payer]
        {| commitment := "confirmed"; skipPreflight := true |})
     (issued (trace_of (createTree conn payer pair canopy w))).
Proof.
  run_script.
  all: intros Hgen; injection Hgen as <- <-.
  all: intros Halloc;
    match goal with
    | Ha : io_createAllocTreeIx _ _ _ _ _ _ = _ |- _ =>
        rewrite Halloc in Ha; first [discriminate Ha | injection Ha as <- <-]
    end.
  all: match goal with
       | Hp : findProgramAddressSync ?seeds ?programId = _,
         Hq : findProgramAddressSync ?seeds ?programId = _ |- _ =>
           rewrite Hp in Hq; injection Hq as <- <-
       end.
  all: cbn; right; left; reflexivity.
Qed.

(** ** The claims *)

Ltac case_In H :=
  repeat match type of H with
    | In _ (_ :: _) => destruct H as [H | H]
    | _ \/ _ => destruct H as [H | H]
    | In _ [] => destruct H
    | False => destruct H
    end.


(** C2 (as amended): in every run of [main] the awaited requests take
    turns: a request is issued only when no awaited request is in flight,
    except that the proof request of the indexing API is issued right after
    the metadata request for the same asset, and the script then waits for
    both (or for the first rejection).  The airdrop request, which the
    script does not await, is left out of the statement. *)
Theorem main_awaits_in_turn (w : W) :
  awaited_in_turn (trace_of (main w)) = true.
Proof.
  unfold awaited_in_turn. rewrite main_settled. reflexivity.
Qed.

(** C3 (as amended): in every invocation of a phase, a rejected remote call
    ends the phase with that very error.  When the rejected call is the
    allocation request of [createTree], which is made before the [try]
    block, the phase does nothing more: no failure message is logged.  When
    it is any other call, all the phase does after the rejection is to
    report it with its failure message.  Either way no request is issued
    after a rejection, and the error is the one the call was rejected
    with. *)
Theorem phase_reports_and_rethrows
    (i : Invocation) (w : W) (c : Call) (e : JsError) (post : list Event) :
  In (c, e, post) (rejections (trace_of (invoke i w))) ->
  outcome_of (invoke i w) = Throw e /\
  ((is_createAllocTreeIx c = true /\
    phase_of i = Phase_createTree /\
    post = []) \/
   (is_createAllocTreeIx c = false /\
    post = [Console_error (failure_message i) e])).
Proof.
  destruct i; run_script; cbn; intros Hin; case_In Hin.
  all: injection Hin as <- <- <-; cbn; auto.
Qed.

(** C4: whenever something fails in a run of [main] (a request is rejected,
    or a phase reports a failure), the run ends with that very error, and
    after the failure no request is issued: no later phase is entered and
    no further transaction is submitted. *)
Theorem main_aborts_on_failure (w : W) (e : JsError) (post : list Event) :
  In (e, post) (failures (trace_of (main w))) ->
  outcome_of (main w) = Throw e /\
  issued post = [] /\
  submitted_phases post = [].
Proof.
  intros Hin. pose proof (main_fails_fast w) as Hff.
  destruct (outcome_of (main w)) as [[] | e0].
  - rewrite Hff in Hin. destruct Hin.
  - destruct (Hff _ _ Hin) as [-> Hq].
    unfold submitted_phases. rewrite Hq. auto.
Qed.

(** C5: every invocation of the transfer phase, and every invocation of the
    burn phase, starts by issuing one [getAsset] request and one
    [getAssetProof] request, both carrying the base58 form of the asset id,
    and issues no other request to the indexing API; the instruction,
    which is built from the answers, comes later. *)
Theorem indexing_requests_come_first
    (conn : Connection) (assetId : PublicKey) (sender receiver payer : Keypair)
    (w : W) :
  (exists rest,
      trace_of (transferCompressedNFT conn assetId sender receiver w) =
        Issue (Call_heliusApi "getAsset" (toBase58 assetId))
        :: Issue (Call_heliusApi "getAssetProof" (toBase58 assetId)) :: rest /\
      filter is_heliusApi (issued rest) = []) /\
  (exists rest,
      trace_of (burnCompressedNFT conn assetId payer w) =
        Issue (Call_heliusApi "getAsset" (toBase58 assetId))
        :: Issue (Call_heliusApi "getAssetProof" (toBase58 assetId)) :: rest /\
      filter is_heliusApi (issued rest) = []).
Proof.
  split; run_script; eexists; split; reflexivity.
Qed.

(** C6: in every invocation of a phase, a confirmed transaction is at once
    followed by the explorer link of its signature on the console; in the
    create-tree phase the address of the tree account (the one the phase
    returns) is printed next. *)
Theorem confirmed_transaction_is_linked
    (i : Invocation) (w : W) (tx : Transaction) (sig : string)
    (post : list Event) :
  In (tx, sig, post) (confirmations (trace_of (invoke i w))) ->
  exists later,
    post =
      Console_log
        [("https://explorer.solana.com/tx/" ++ sig ++ "?cluster=devnet")%string]
      :: later /\
    forall conn payer pair canopy,
      i = Invoke_createTree conn payer pair canopy ->
      exists ix accounts args programId,
        instructions tx =
          [Ix_alloc ix; createCreateTreeInstruction accounts args programId] /\
        later =
          [Console_log ["Tree Address:"; toBase58 (CreateTree.merkleTree accounts)]] /\
        outcome_of (createTree conn payer pair canopy w) =
          Ok (CreateTree.merkleTree accounts).
Proof.
  destruct i; run_script; cbn; intros Hin; case_In Hin.
  all: injection Hin as <- <- <-.
  all: eexists; (split; [reflexivity |]);
    intros conn' payer' pair' canopy' E; try discriminate E.
  injection E as <- <- <- <-.
  run_script; try congruence.
  do 4 eexists. cbn. repeat split; congruence.
Qed.

(** C7: every mint instruction [main] submits is built after a run of
    [createTree] that returned a tree address, names that address as its
    [merkleTree], and names as its [treeAuthority] the program-derived
    address of that same tree address under the Bubblegum program. *)
Theorem mints_go_to_the_created_tree
    (w : W) (conn : Connection) (tx : Transaction) (signers : list Keypair)
    (options : ConfirmOptions) (accounts : MintV1.Accounts) (args : MintV1.Args) :
  In (Call_sendAndConfirmTransaction conn tx signers options)
     (issued (trace_of (main w))) ->
  In (createMintV1Instruction accounts args) (instructions tx) ->
  MintV1.treeAuthority accounts =
    fst (findProgramAddressSync [toBuffer (MintV1.merkleTree accounts)]
           BUBBLEGUM_PROGRAM_ID) /\
  exists wallet w0 w1 before created after,
    createTree (new_Connection (clusterApiUrl "devnet") "confirmed") wallet
      {| maxDepth := 3; maxBufferSize := 8 |} 0 w0 =
      (Ok (MintV1.merkleTree accounts), w1, created) /\
    trace_of (main w) = before ++ created ++ after /\
    In (Call_sendAndConfirmTransaction conn tx signers options) (issued after).
Proof.
  intros Hsend Hix.
  destruct (main w) as [[r w'] tr] eqn:Hrun. cbn [trace_of snd] in *.
  apply main_splits_at_the_tree in Hrun
    as [Hnone | (wallet & w0 & w1 & before & created & after & treeAddress
                 & Htree & -> & Hnone & Hinto)].
  - rewrite Forall_forall in Hnone. destruct (Hnone _ Hsend _ _ Hix).
  - rewrite app_assoc, issued_app in Hsend. apply in_app_or in Hsend.
    rewrite Forall_forall in Hnone, Hinto.
    destruct Hsend as [Hsend | Hsend].
    + destruct (Hnone _ Hsend _ _ Hix).
    + destruct (Hinto _ Hsend _ _ Hix) as [Etree Eauth].
      rewrite Etree. split; [exact Eauth |].
      exists wallet, w0, w1, before, created, after. auto.
Qed.




(** * Further properties of the script *)

(** ** What is submitted, and how often *)

Lemma submits_within_bind {A B} (L1 L2 : list Phase) (m : M A) (f : A -> M B) :
  submits_within L1 m -> (forall a, submits_within L2 (f a)) ->
  submits_within (L1 ++ L2) (bind m f).
Proof.
  intros Hm Hf w. specialize (Hm w). unfold bind.
  destruct (m w) as [[[a | e] w1] t1]; cbn [outcome_of trace_of fst snd] in *.
  - specialize (Hf a w1).
    destruct (f a w1) as [[[b | e] w2] t2]; cbn [outcome_of trace_of fst snd] in *;
      rewrite submitted_phases_app, Hm.
    + now rewrite Hf.
    + destruct Hf as [rest Hf]. exists rest. now rewrite <- app_assoc, Hf.
  - destruct Hm as [rest Hm]. exists (rest ++ L2). now rewrite app_assoc, Hm.
Qed.

Lemma submits_nothing_await {A} (p : Promise A) :
  is_submission (call p) = false -> submits_within [] (await p).
Proof.
  intros Hc w. unfold await. destruct (answer p w) as [[a | e] w1]; cbn.
  all: destruct (call p); try discriminate Hc; cbn; try reflexivity.
  all: now exists [].
Qed.

Lemma submits_nothing_detached {A} (p : Promise A) :
  is_submission (call p) = false -> submits_within [] (detached p).
Proof.
  intros Hc w. unfold detached. destruct (answer p w) as [o w1]; cbn.
  destruct (call p); try discriminate Hc; reflexivity.
Qed.

Ltac one_submission :=
  intros w; run_script; cbn; try reflexivity; eexists; reflexivity.

Lemma createTree_submits_once conn payer pair canopy :
  submits_within [Phase_createTree] (createTree conn payer pair canopy).
Proof. one_submission. Qed.

Lemma mintCompressedNFT_submits_once conn payer treeAddress :
  submits_within [Phase_mint] (mintCompressedNFT conn payer treeAddress).
Proof. one_submission. Qed.

Lemma transferCompressedNFT_submits_once conn assetId sender receiver :
  submits_within [Phase_transfer] (transferCompressedNFT conn assetId sender receiver).
Proof. one_submission. Qed.

Lemma burnCompressedNFT_submits_once conn assetId payer :
  submits_within [Phase_burn] (burnCompressedNFT conn assetId payer).
Proof. one_submission. Qed.

Lemma main_submits_within :
  submits_within
    [Phase_createTree; Phase_mint; Phase_mint; Phase_transfer; Phase_burn] main.
Proof.
  unfold main.
  apply (submits_within_bind (L1 := []));
    [apply submits_nothing_await; reflexivity | intros wallet].
  apply (submits_within_bind (L1 := []));
    [apply submits_nothing_await; reflexivity | intros wallet2].
  apply (submits_within_bind (L1 := []));
    [apply submits_nothing_detached; reflexivity | intros _].
  apply (submits_within_bind (L1 := [Phase_createTree]));
    [apply createTree_submits_once | intros treeAddress].
  apply (submits_within_bind (L1 := [Phase_mint]));
    [apply mintCompressedNFT_submits_once | intros assetId1].
  apply (submits_within_bind (L1 := [Phase_mint]));
    [apply mintCompressedNFT_submits_once | intros assetId2].
  apply (submits_within_bind (L1 := [Phase_transfer]) (L2 := [Phase_burn]));
    [apply transferCompressedNFT_submits_once | intros _].
  apply burnCompressedNFT_submits_once.
Qed.

(** X1: in every run of [main], failing runs included, the instructions
    submitted are the first few of create tree, mint, mint, transfer, burn,
    in this order: no phase is skipped, repeated or taken out of turn. *)
Theorem main_submits_a_prefix (w : W) :
  exists rest,
    submitted_phases (trace_of (main w)) ++ rest =
      [Phase_createTree; Phase_mint; Phase_mint; Phase_transfer; Phase_burn].
Proof.
  pose proof (main_submits_within w) as Hm.
  destruct (outcome_of (main w)).
  - exists []. now rewrite app_nil_r.
  - exact Hm.
Qed.

(** X2: an invocation of a phase submits exactly one transaction when it
    completes and at most one when it fails: nothing is ever submitted a
    second time. *)
Theorem phase_submits_at_most_once (i : Invocation) (w : W) :
  match outcome_of (invoke i w) with
  | Ok _ =>
      length (submissions (trace_of (invoke i w))) = 1%nat /\
      submitted_phases (trace_of (invoke i w)) = [phase_of i]
  | Throw _ => (length (submissions (trace_of (invoke i w))) <= 1)%nat
  end.
Proof.
  destruct i; run_script; cbn; auto.
Qed.

(** X9: the create-tree phase and the mint phase are strictly sequential:
    each of their requests is issued only after the one before has settled.
    (The overlap of C2 is confined to the two indexing requests of the
    transfer and burn phases, and to the airdrop.) *)
Theorem createTree_and_mint_are_strictly_sequential
    (conn : Connection) (payer : Keypair) (pair : ValidDepthSizePair)
    (canopy : Z) (treeAddress : PublicKey) (w : W) :
  strictly_sequential (trace_of (createTree conn payer pair canopy w)) = true /\
  strictly_sequential (trace_of (mintCompressedNFT conn payer treeAddress w)) = true.
Proof.
  split; run_script; reflexivity.
Qed.

Lemma setup_then (K : Keypair -> Keypair -> M unit) (w : W) :
  exists rest,
    trace_of
      (bind (await (getOrCreateKeypair "Wallet_1")) (fun wallet =>
       bind (await (getOrCreateKeypair "Wallet_2")) (fun wallet2 =>
       bind (detached (airdropSolIfNeeded (publicKey wallet))) (fun _ =>
       K wallet wallet2))) w) =
      trace_of (Part_000.main w) ++ rest /\
    match outcome_of (Part_000.main w) with
    | Ok _ => True
    | Throw e =>
        outcome_of
          (bind (await (getOrCreateKeypair "Wallet_1")) (fun wallet =>
           bind (await (getOrCreateKeypair "Wallet_2")) (fun wallet2 =>
           bind (detached (airdropSolIfNeeded (publicKey wallet))) (fun _ =>
           K wallet wallet2))) w) = Throw e /\
        rest = []
    end.
Proof.
  unfold Part_000.main, bind, await, detached, trace_of, outcome_of.
  cbn [call answer logged getOrCreateKeypair airdropSolIfNeeded].
  destruct (io_getOrCreateKeypair "Wallet_1" w) as [[wallet | e] w1]; cbn.
  2: { exists []. auto. }
  destruct (io_getOrCreateKeypair "Wallet_2" w1) as [[wallet2 | e] w2]; cbn.
  2: { exists []. auto. }
  destruct (io_airdropSolIfNeeded (publicKey wallet) w2) as [o w3]; cbn.
  destruct (K wallet wallet2 w3) as [[r w'] t]. cbn.
  exists t. split; [reflexivity | exact I].
Qed.

(** X11: the full script extends the earlier one: every run of [main]
    starts with the run of the earlier [main] from the same state of the
    world, and when the earlier one fails (a wallet cannot be loaded), the
    full one fails with the same error and does nothing more. *)
Theorem main_extends_the_earlier_main (w : W) :
  exists rest,
    trace_of (main w) = trace_of (Part_000.main w) ++ rest /\
    match outcome_of (Part_000.main w) with
    | Ok _ => True
    | Throw e => outcome_of (main w) = Throw e /\ rest = []
    end.
Proof.
  unfold main. cbv zeta. apply setup_then.
Qed.

(** ** The proof path, whatever the canopy depth *)

Lemma js_slice_kept {A} (l : list A) (canopyDepth : Z) :
  js_slice 0 (Z.of_nat (length l) - canopyDepth) l =
  firstn (nodes_kept (length l) canopyDepth) l.
Proof.
  unfold js_slice, nodes_kept. cbn [Z.ltb Z.compare].
  rewrite (Z.min_l 0) by lia. cbn [Z.to_nat skipn]. rewrite Z.sub_0_r.
  destruct (Z.ltb_spec (Z.of_nat (length l) - canopyDepth) 0) as [Hneg | Hpos];
    destruct (Z.ltb_spec (Z.of_nat (length l)) canopyDepth) as [Hdeep | Hfit];
    try (exfalso; lia).
  - f_equal. f_equal. lia.
  - destruct (Z.le_ge_cases (Z.of_nat (length l) - canopyDepth) (Z.of_nat (length l))).
    + rewrite Z.min_l by lia. reflexivity.
    + rewrite Z.min_r by lia. rewrite Nat2Z.id.
      rewrite !firstn_all2 by lia. reflexivity.
Qed.

Lemma proofPath_of_kept (nodes : list string) (canopyDepth : Z)
    (path : list AccountMeta) :
  proofPath_of nodes (js_or_zero canopyDepth) = Ok path ->
  exists keys,
    map_throwing new_PublicKey nodes = Ok keys /\
    path = map read_only (firstn (nodes_kept (length nodes) canopyDepth) keys).
Proof.
  unfold proofPath_of. rewrite js_or_zero_id.
  change (fun node : string =>
            outcome_map
              (fun pk => {| pubkey := pk; isSigner := false; isWritable := false |})
              (new_PublicKey node))
    with (fun node : string => outcome_map read_only (new_PublicKey node)).
  rewrite map_throwing_outcome_map.
  destruct (map_throwing new_PublicKey nodes) as [keys | e] eqn:Hkeys;
    cbn; [| discriminate].
  intros E. injection E as <-. exists keys. split; [reflexivity |].
  rewrite <- (map_throwing_length _ _ Hkeys).
  rewrite <- (length_map read_only keys) at 1.
  rewrite js_slice_kept, length_map. apply firstn_map.
Qed.

(** X3: in every invocation of the transfer or burn phase, whatever the
    canopy depth, the proof accounts of the submitted instruction are a
    prefix of the fetched proof, in its order, as read-only accounts that do
    not sign: the first [length - canopy depth] nodes when the canopy is not
    deeper than the proof is long, the first [2 * length - canopy depth]
    nodes (none, if that is negative) when it is. *)
Theorem proof_path_is_a_prefix
    (i : Invocation) (w : W) (conn : Connection) (tx : Transaction)
    (signers : list Keypair) (options : ConfirmOptions)
    (ix : TransactionInstruction) (path : list AccountMeta)
    (id : string) (assetProof : AssetProofData)
    (conn' : Connection) (treeAddress : PublicKey)
    (treeAccount : ConcurrentMerkleTreeAccount) :
  In (Call_sendAndConfirmTransaction conn tx signers options)
     (issued (trace_of (invoke i w))) ->
  In ix (instructions tx) ->
  remaining_accounts ix = Some path ->
  In (Settle (Call_heliusApi "getAssetProof" id) (Ok (Resp_assetProof assetProof)))
     (trace_of (invoke i w)) ->
  In (Settle (Call_fromAccountAddress conn' treeAddress)
        (Ok (Resp_treeAccount treeAccount)))
     (trace_of (invoke i w)) ->
  exists keys,
    map_throwing new_PublicKey (proof assetProof) = Ok keys /\
    path =
      map read_only
        (firstn
           (nodes_kept (length (proof assetProof)) (getCanopyDepth treeAccount))
           keys).
Proof.
  destruct i; run_script; cbn [issued]; intros Hsend; case_In Hsend;
    try discriminate Hsend; injection Hsend as <- <- <- <-;
    cbn; intros Hix Hf; case_In Hix; subst ix; try discriminate Hf;
    injection Hf as <-;
    intros Hproof Htree;
    case_In Hproof; try discriminate Hproof; injection Hproof as <- <-;
    case_In Htree; try discriminate Htree; injection Htree as <- <- <-.
  all: eapply proofPath_of_kept; eassumption.
Qed.

(** X5: in every invocation of the transfer or burn phase, when one node
    of the fetched proof is no public key (be it a node the canopy cut would
    have dropped), the phase ends with an error and submits no
    transaction. *)
Theorem invalid_proof_node_stops_the_phase
    (i : Invocation) (w : W) (id : string) (assetProof : AssetProofData)
    (e : JsError) :
  In (Settle (Call_heliusApi "getAssetProof" id) (Ok (Resp_assetProof assetProof)))
     (trace_of (invoke i w)) ->
  map_throwing new_PublicKey (proof assetProof) = Throw e ->
  submissions (trace_of (invoke i w)) = [] /\
  exists e', outcome_of (invoke i w) = Throw e'.
Proof.
  destruct i; run_script; cbn -[map_throwing]; intros Hproof Hbad;
    case_In Hproof; try discriminate Hproof; injection Hproof as <- <-.
  all: try (split; [reflexivity | eexists; reflexivity]).
  all: match goal with
       | Hp : proofPath_of _ _ = Ok _ |- _ =>
           eapply proofPath_of_kept in Hp; destruct Hp as (keys & Hkeys & _);
           congruence
       end.
Qed.

(** ** How a phase ends when it fails *)

Lemma ends_with {A} (l : list A) (x : A) (r : list A) :
  rev l = x :: r -> l = rev r ++ [x].
Proof.
  intros E. rewrite <- (rev_involutive l), E. reflexivity.
Qed.

(** X6: whenever an invocation of a phase ends with an error, whether a
    request was rejected or the fetched data could not be read, the last
    thing it did was to report that very error with its failure message;
    the one exception is [createTree] ending on its rejected allocation
    request. *)
Theorem phase_failure_is_reported
    (i : Invocation) (w : W) (e : JsError) :
  outcome_of (invoke i w) = Throw e ->
  exists earlier last,
    trace_of (invoke i w) = earlier ++ [last] /\
    (last = Console_error (failure_message i) e \/
     exists c, is_createAllocTreeIx c = true /\ last = Settle c (Throw e)).
Proof.
  destruct i; run_script; cbn; intros E; try discriminate E; injection E as <-.
  all: do 2 eexists; split; [apply ends_with; cbn; reflexivity |].
  all: first [left; reflexivity
             | right; eexists; split; [| reflexivity]; reflexivity].
Qed.

(** X10: every transaction a phase submits goes to the connection the
    phase was given, with commitment [confirmed] and the preflight skipped,
    and names the calling wallet as fee payer.  A transaction of
    [createTree] is signed by the keypair of the tree account it creates
    and then by the calling wallet; a transaction of any other phase is
    signed by the calling wallet alone. *)
Theorem submission_is_paid_and_signed_by_the_caller
    (i : Invocation) (w : W) (conn : Connection) (tx : Transaction)
    (signers : list Keypair) (options : ConfirmOptions) :
  In (Call_sendAndConfirmTransaction conn tx signers options)
     (issued (trace_of (invoke i w))) ->
  conn = connection_of i /\
  options = {| commitment := "confirmed"; skipPreflight := true |} /\
  feePayer tx = Some (publicKey (caller i)) /\
  ((phase_of i = Phase_createTree /\
    exists treeKeypair ix accounts args programId,
      signers = [treeKeypair; caller i] /\
      instructions tx =
        [Ix_alloc ix; createCreateTreeInstruction accounts args programId] /\
      CreateTree.merkleTree accounts = publicKey treeKeypair) \/
   (phase_of i <> Phase_createTree /\ signers = [caller i])).
Proof.
  destruct i; run_script; cbn [issued]; intros Hsend; case_In Hsend;
    try discriminate Hsend; injection Hsend as <- <- <- <-.
  all: cbn; repeat split.
  all: first [ right; split; [discriminate | reflexivity]
             | left; split; [reflexivity |];
               do 5 eexists; repeat split; reflexivity ].
Qed.

(** ** Where the fields of a transfer or burn instruction come from *)

Ltac point_at := repeat first [left; reflexivity | right].

(** X4: in every invocation of the transfer or burn phase, the submitted
    instruction names as its tree the key read from the fetched
    [compression.tree], as its authority the authority of the tree account
    fetched at that very address over the connection of the phase, and as
    root, data hash and creator hash the bytes of the keys read from the
    trimmed [root], [data_hash] and [creator_hash] that were fetched. *)
Theorem instruction_is_built_from_the_fetched_data
    (i : Invocation) (w : W) (conn : Connection) (tx : Transaction)
    (signers : list Keypair) (options : ConfirmOptions)
    (ix : TransactionInstruction) (merkleTree treeAuthority : PublicKey)
    (rootHash dataHash creatorHash : list Byte.byte) :
  In (Call_sendAndConfirmTransaction conn tx signers options)
     (issued (trace_of (invoke i w))) ->
  In ix (instructions tx) ->
  tree_fields ix = Some (merkleTree, treeAuthority, rootHash, dataHash, creatorHash) ->
  exists id asset id' assetProof treeAccount rootKey dataHashKey creatorHashKey,
    In (Settle (Call_heliusApi "getAsset" id) (Ok (Resp_asset asset)))
       (trace_of (invoke i w)) /\
    In (Settle (Call_heliusApi "getAssetProof" id') (Ok (Resp_assetProof assetProof)))
       (trace_of (invoke i w)) /\
    In (Settle (Call_fromAccountAddress (connection_of i) merkleTree)
          (Ok (Resp_treeAccount treeAccount)))
       (trace_of (invoke i w)) /\
    new_PublicKey (tree (compression asset)) = Ok merkleTree /\
    treeAuthority = getAuthority treeAccount /\
    new_PublicKey (trim (root assetProof)) = Ok rootKey /\
    rootHash = toBytes rootKey /\
    new_PublicKey (trim (data_hash (compression asset))) = Ok dataHashKey /\
    dataHash = toBytes dataHashKey /\
    new_PublicKey (trim (creator_hash (compression asset))) = Ok creatorHashKey /\
    creatorHash = toBytes creatorHashKey.
Proof.
  destruct i; run_script; cbn [issued]; intros Hsend; case_In Hsend;
    try discriminate Hsend; injection Hsend as <- <- <- <-;
    cbn; intros Hix Hf; case_In Hix; subst ix; try discriminate Hf;
    injection Hf as <- <- <- <- <-.
  all: do 8 eexists.
  all: split; [point_at |].
  all: split; [point_at |].
  all: split; [point_at |].
  all: cbn; repeat split; eassumption.
Qed.

(** ** One tree, two wallets *)

Ltac each_request :=
  repeat first [apply Forall_nil | apply Forall_cons].

Lemma createTree_uses_its_tree conn payer pair canopy w :
  exists treeAddress,
    Forall (uses_tree treeAddress)
      (issued (trace_of (createTree conn payer pair canopy w))) /\
    forall a, outcome_of (createTree conn payer pair canopy w) = Ok a ->
              a = treeAddress.
Proof.
  run_script.
  all: match goal with
       | Hk : io_generate _ = (?k, _) |- _ => exists (publicKey k)
       end.
  all: split; [each_request | cbn; congruence].
  all: cbn; try exact I; split; check_request.
  all: split; [reflexivity |].
  all: match goal with
       | H : findProgramAddressSync _ _ = _ |- _ => rewrite H; reflexivity
       end.
Qed.

#[local] Hint Extern 1 (uses_tree _ _) =>
  solve [cbn; try exact I; split; check_request] : calls_db.
#[local] Hint Extern 1 (uses_wallets _ _ _) =>
  solve [cbn; try exact I; repeat split; check_request] : calls_db.

Lemma mintCompressedNFT_uses_tree conn payer treeAddress :
  calls_satisfy (uses_tree treeAddress) (mintCompressedNFT conn payer treeAddress).
Proof. unfold mintCompressedNFT. auto 40 with calls_db. Qed.

Lemma transferCompressedNFT_uses_tree treeAddress conn assetId sender receiver :
  calls_satisfy (uses_tree treeAddress)
    (transferCompressedNFT conn assetId sender receiver).
Proof. unfold transferCompressedNFT. auto 60 with calls_db. Qed.

Lemma burnCompressedNFT_uses_tree treeAddress conn assetId payer :
  calls_satisfy (uses_tree treeAddress) (burnCompressedNFT conn assetId payer).
Proof. unfold burnCompressedNFT. auto 60 with calls_db. Qed.

Lemma main_uses_one_tree (w : W) :
  exists treeAddress, Forall (uses_tree treeAddress) (issued (trace_of (main w))).
Proof.
  destruct (main w) as [[r w'] tr] eqn:Hrun. cbn [trace_of snd].
  unfold main in Hrun.
  apply bind_inv in Hrun as [(e & Hm & ->) | (wallet & w1 & t1 & t1' & Hm & Hrun & ->)].
  { exists BUBBLEGUM_PROGRAM_ID. revert Hm. apply run_calls. auto with calls_db. }
  apply bind_inv in Hrun as [(e & Hm2 & ->) | (wallet2 & w2 & t2 & t2' & Hm2 & Hrun & ->)].
  { exists BUBBLEGUM_PROGRAM_ID. rewrite issued_app. apply Forall_app. split.
    - revert Hm. apply run_calls. auto with calls_db.
    - revert Hm2. apply run_calls. auto with calls_db. }
  apply bind_inv in Hrun as [(e & Hm3 & ->) | ([] & w3 & t3 & t3' & Hm3 & Hrun & ->)].
  { exists BUBBLEGUM_PROGRAM_ID. rewrite !issued_app, !Forall_app. repeat split.
    - revert Hm. apply run_calls. auto with calls_db.
    - revert Hm2. apply run_calls. auto with calls_db.
    - revert Hm3. apply run_calls. auto with calls_db. }
  destruct (createTree_uses_its_tree
              (new_Connection (clusterApiUrl "devnet") "confirmed") wallet
              {| maxDepth := 3; maxBufferSize := 8 |} 0 w3)
    as (treeAddress & Hcreated & Hreturned).
  exists treeAddress.
  assert (Hsetup : Forall (uses_tree treeAddress) (issued (t1 ++ t2 ++ t3))).
  { rewrite !issued_app, !Forall_app. repeat split.
    - revert Hm. apply run_calls. auto with calls_db.
    - revert Hm2. apply run_calls. auto with calls_db.
    - revert Hm3. apply run_calls. auto with calls_db. }
  rewrite issued_app, Forall_app in Hsetup. destruct Hsetup as [H1 H23].
  rewrite issued_app, Forall_app in H23. destruct H23 as [H2 H3].
  apply bind_inv in Hrun as [(e & Hm4 & ->) | (a & w4 & t4 & t4' & Hm4 & Hrun & ->)];
    rewrite Hm4 in Hcreated, Hreturned; cbn [trace_of outcome_of fst snd] in *.
  { rewrite !issued_app, !Forall_app. auto. }
  rewrite (Hreturned a eq_refl) in Hrun.
  rewrite !issued_app, !Forall_app. repeat split; auto.
  revert Hrun. apply run_calls.
  auto 40 using mintCompressedNFT_uses_tree, transferCompressedNFT_uses_tree,
    burnCompressedNFT_uses_tree with calls_db.
Qed.

(** X7: in every run of [main], a mint instruction names the same tree
    account and the same tree authority as the create-tree instruction: the
    NFTs go into the tree the run created, under the authority it was
    created with. *)
Theorem mint_and_creation_agree_on_the_tree
    (w : W)
    (conn1 : Connection) (tx1 : Transaction) (signers1 : list Keypair)
    (options1 : ConfirmOptions)
    (created : CreateTree.Accounts) (args1 : CreateTree.Args) (programId : PublicKey)
    (conn2 : Connection) (tx2 : Transaction) (signers2 : list Keypair)
    (options2 : ConfirmOptions)
    (minted : MintV1.Accounts) (args2 : MintV1.Args) :
  In (Call_sendAndConfirmTransaction conn1 tx1 signers1 options1)
     (issued (trace_of (main w))) ->
  In (createCreateTreeInstruction created args1 programId) (instructions tx1) ->
  In (Call_sendAndConfirmTransaction conn2 tx2 signers2 options2)
     (issued (trace_of (main w))) ->
  In (createMintV1Instruction minted args2) (instructions tx2) ->
  MintV1.merkleTree minted = CreateTree.merkleTree created /\
  MintV1.treeAuthority minted = CreateTree.treeAuthority created.
Proof.
  intros Hsend1 Hix1 Hsend2 Hix2.
  destruct (main_uses_one_tree w) as [treeAddress Hall].
  rewrite Forall_forall in Hall.
  destruct (proj1 (Hall _ Hsend1) _ _ _ Hix1) as [-> ->].
  destruct (proj2 (Hall _ Hsend2) _ _ Hix2) as [-> ->].
  auto.
Qed.

Lemma createTree_uses_wallets conn payer other pair canopy :
  calls_satisfy (uses_wallets payer other) (createTree conn payer pair canopy).
Proof. unfold createTree. auto 40 with calls_db. Qed.

Lemma mintCompressedNFT_uses_wallets conn payer other treeAddress :
  calls_satisfy (uses_wallets payer other) (mintCompressedNFT conn payer treeAddress).
Proof. unfold mintCompressedNFT. auto 40 with calls_db. Qed.

Lemma transferCompressedNFT_uses_wallets conn assetId sender receiver :
  calls_satisfy (uses_wallets sender receiver)
    (transferCompressedNFT conn assetId sender receiver).
Proof. unfold transferCompressedNFT. auto 60 with calls_db. Qed.

Lemma burnCompressedNFT_uses_wallets conn assetId payer other :
  calls_satisfy (uses_wallets payer other) (burnCompressedNFT conn assetId payer).
Proof. unfold burnCompressedNFT. auto 60 with calls_db. Qed.

(** X12: in every run of [main], failing runs included, every submitted
    transaction is paid and signed by the keypair loaded as Wallet_1; every
    mint instruction names the key of that keypair as leaf owner, leaf
    delegate and tree delegate; and every transfer instruction names as new
    owner the key of the keypair loaded as Wallet_2. *)
Theorem main_uses_the_two_wallets
    (w w1 w2 : W) (wallet wallet2 : Keypair)
    (conn : Connection) (tx : Transaction) (signers : list Keypair)
    (options : ConfirmOptions) :
  io_getOrCreateKeypair "Wallet_1" w = (Ok wallet, w1) ->
  io_getOrCreateKeypair "Wallet_2" w1 = (Ok wallet2, w2) ->
  In (Call_sendAndConfirmTransaction conn tx signers options)
     (issued (trace_of (main w))) ->
  feePayer tx = Some (publicKey wallet) /\
  In wallet signers /\
  (forall accounts args,
      In (createMintV1Instruction accounts args) (instructions tx) ->
      MintV1.leafOwner accounts = publicKey wallet /\
      MintV1.leafDelegate accounts = publicKey wallet /\
      MintV1.treeDelegate accounts = publicKey wallet) /\
  (forall accounts args programId,
      In (createTransferInstruction accounts args programId) (instructions tx) ->
      Transfer.newLeafOwner accounts = publicKey wallet2).
Proof.
  intros Hkp1 Hkp2 Hsend.
  destruct (main w) as [[r w'] tr] eqn:Hrun. cbn [trace_of snd] in Hsend.
  unfold main in Hrun.
  apply bind_inv in Hrun as [(e & Hm & ->) | (k1 & wa & t1 & t1' & Hm & Hrun & ->)];
    apply await_inv in Hm as [Hm ->]; cbn in Hm; rewrite Hkp1 in Hm;
    [discriminate Hm | injection Hm as <- <-].
  apply bind_inv in Hrun as [(e & Hm & ->) | (k2 & wb & t2 & t2' & Hm & Hrun & ->)];
    apply await_inv in Hm as [Hm ->]; cbn in Hm; rewrite Hkp2 in Hm;
    [discriminate Hm | injection Hm as <- <-].
  assert (Hrest : Forall (uses_wallets wallet wallet2) (issued t2')).
  { revert Hrun. apply run_calls.
    auto 40 using createTree_uses_wallets, mintCompressedNFT_uses_wallets,
      transferCompressedNFT_uses_wallets, burnCompressedNFT_uses_wallets
      with calls_db. }
  cbn in Hsend. destruct Hsend as [Hsend | [Hsend | Hsend]];
    try discriminate Hsend.
  rewrite Forall_forall in Hrest. exact (Hrest _ Hsend).
Qed.

(** ** The asset id of a mint *)

(** X8: in every invocation of the mint phase, the asset id is extracted
    over the connection and for the tree address the phase was given, from
    the signature of a transaction of that invocation that was confirmed
    and that carries the mint instruction. *)
Theorem asset_id_is_extracted_from_the_confirmed_mint
    (conn : Connection) (payer : Keypair) (treeAddress : PublicKey) (w : W)
    (conn' : Connection) (sig : string) (treeAddress' : PublicKey) :
  In (Call_extractAssetId conn' sig treeAddress')
     (issued (trace_of (mintCompressedNFT conn payer treeAddress w))) ->
  conn' = conn /\
  treeAddress' = treeAddress /\
  exists tx post accounts args,
    In (tx, sig, post)
       (confirmations (trace_of (mintCompressedNFT conn payer treeAddress w))) /\
    instructions tx = [createMintV1Instruction accounts args].
Proof.
  run_script; cbn [issued]; intros Hex; case_In Hex; try discriminate Hex;
    injection Hex as <- <- <-.
  all: repeat split.
  all: do 4 eexists; split; [cbn; left; reflexivity | reflexivity].
Qed.

(** X13: when the extraction of the asset id is rejected, the mint phase
    ends with that error although its transaction has been confirmed: the
    NFT is minted, and its asset id is never returned. *)
Theorem rejected_extraction_leaves_a_confirmed_mint
    (conn : Connection) (payer : Keypair) (treeAddress : PublicKey) (w : W)
    (conn' : Connection) (sig : string) (treeAddress' : PublicKey)
    (e : JsError) (post : list Event) :
  In (Call_extractAssetId conn' sig treeAddress', e, post)
     (rejections (trace_of (mintCompressedNFT conn payer treeAddress w))) ->
  outcome_of (mintCompressedNFT conn payer treeAddress w) = Throw e /\
  submitted_phases (trace_of (mintCompressedNFT conn payer treeAddress w)) =
    [Phase_mint] /\
  exists tx later,
    In (tx, sig, later)
       (confirmations (trace_of (mintCompressedNFT conn payer treeAddress w))).
Proof.
  run_script; cbn; intros Hex; case_In Hex; try discriminate Hex;
    injection Hex as <- <- <- <- <-.
  all: repeat split.
  all: do 2 eexists; left; reflexivity.
Qed.

(** ** Transfer and burn, side by side *)

(** X14: from the same state of the world and for the same asset, the
    transfer phase and the burn phase ask the indexing API and the node the
    same questions in the same order, and what their instructions say about
    the leaf (owner, delegate, nonce, index), about the tree (address,
    authority, root, data hash, creator hash) and about the proof accounts
    is the same. *)
Theorem transfer_and_burn_prepare_the_same_leaf
    (conn : Connection) (assetId : PublicKey) (sender receiver payer : Keypair)
    (w : W) :
  map outline (issued (trace_of (transferCompressedNFT conn assetId sender receiver w))) =
  map outline (issued (trace_of (burnCompressedNFT conn assetId payer w))).
Proof.
  run_script; reflexivity.
Qed.

(** ** The delegate of the leaf *)

(** X15: in every invocation of the transfer or burn phase, when the
    fetched ownership record names a delegate (a string that is not empty),
    the leaf delegate of the submitted instruction is the key read from that
    string, not the owner. *)
Theorem present_delegate_is_used
    (i : Invocation) (w : W) (conn : Connection) (tx : Transaction)
    (signers : list Keypair) (options : ConfirmOptions)
    (ix : TransactionInstruction) (leafOwner leafDelegate : PublicKey)
    (nonce index : Z) :
  In (Call_sendAndConfirmTransaction conn tx signers options)
     (issued (trace_of (invoke i w))) ->
  In ix (instructions tx) ->
  leaf_fields ix = Some (leafOwner, leafDelegate, nonce, index) ->
  exists id asset,
    In (Settle (Call_heliusApi "getAsset" id) (Ok (Resp_asset asset)))
       (trace_of (invoke i w)) /\
    forall d,
      delegate (ownership asset) = Some d -> d <> EmptyString ->
      new_PublicKey d = Ok leafDelegate.
Proof.
  destruct i; run_script; cbn [issued]; intros Hsend; case_In Hsend;
    try discriminate Hsend; injection Hsend as <- <- <- <-;
    cbn; intros Hix Hf; case_In Hix; subst ix; try discriminate Hf;
    injection Hf as <- <- <- <-.
  all: do 2 eexists; split; [point_at |].
  all: intros d Hd Hne;
    match goal with
    | Hdel : delegate_or _ _ = Ok _ |- _ =>
        rewrite Hd in Hdel; destruct d; [contradiction | exact Hdel]
    end.
Qed.

End Properties.

(** * The claims on concrete runs *)

Module Runs.
Import Demo.

(** Membership, shown by pointing at the position. *)
Ltac at_position n := apply (nth_error_In _ n); cbv; reflexivity.


(** C2 as stated fails: in the run in which nothing is rejected, the
    airdrop request is still in flight when the allocation is requested,
    and the transfer phase issues its two indexing requests back to back,
    before either has settled. *)
Lemma indexing_requests_are_issued_together :
  strictly_sequential (trace_of (main (WORLD := world fair_weather) 0%nat)) = false /\
  strictly_sequential
    (trace_of (invoke (WORLD := world fair_weather) transfer_of_asset 0%nat)) = false /\
  firstn 2 (trace_of (invoke (WORLD := world fair_weather) transfer_of_asset 0%nat)) =
    [Issue (Call_heliusApi "getAsset" "asset");
     Issue (Call_heliusApi "getAssetProof" "asset")].
Proof. vm_compute. auto. Qed.

(** C3 as stated fails: when the allocation request of [createTree] is
    rejected, the phase ends with the error and reports nothing. *)
Lemma allocation_failure_is_not_reported :
  invoke (WORLD := world (rejecting 0)) tree_creation 0%nat =
    (Throw boom, 1%nat,
     [Issue (Call_createAllocTreeIx devnet "pk:tree" "pk:Wallet_1" three_eight 0);
      Settle (Call_createAllocTreeIx devnet "pk:tree" "pk:Wallet_1" three_eight 0)
        (Throw boom)]).
Proof. vm_compute. reflexivity. Qed.

(** C3 (as amended) on a mint whose transaction is rejected, which is
    reported, and on a tree creation whose allocation request is rejected,
    which is not. *)
Lemma phase_reports_and_rethrows_witness :
  (outcome_of (invoke (WORLD := world (rejecting 0)) minting 0%nat) = Throw boom /\
   ((is_createAllocTreeIx
       (Call_sendAndConfirmTransaction devnet
          (set_feePayer
             (new_Transaction_add [createMintV1Instruction mint_accounts mint_args])
             "pk:Wallet_1")
          [wallet_1] confirmed_skipPreflight) = true /\
     phase_of minting = Phase_createTree /\
     [Console_error (failure_message minting) boom] = []) \/
    (is_createAllocTreeIx
       (Call_sendAndConfirmTransaction devnet
          (set_feePayer
             (new_Transaction_add [createMintV1Instruction mint_accounts mint_args])
             "pk:Wallet_1")
          [wallet_1] confirmed_skipPreflight) = false /\
     [Console_error (failure_message minting) boom] =
     [Console_error (failure_message minting) boom]))) /\
  (outcome_of (invoke (WORLD := world (rejecting 0)) tree_creation 0%nat) =
     Throw boom /\
   ((is_createAllocTreeIx
       (Call_createAllocTreeIx devnet "pk:tree" "pk:Wallet_1" three_eight 0) = true /\
     phase_of tree_creation = Phase_createTree /\
     ([] : list Event) = []) \/
    (is_createAllocTreeIx
       (Call_createAllocTreeIx devnet "pk:tree" "pk:Wallet_1" three_eight 0) = false /\
     [] = [Console_error (failure_message tree_creation) boom]))).
Proof.
  split.
  - apply (@phase_reports_and_rethrows sdk (world (rejecting 0)) minting 0%nat).
    at_position 0%nat.
  - apply (@phase_reports_and_rethrows sdk (world (rejecting 0)) tree_creation 0%nat).
    at_position 0%nat.
Defined.

(** C4 on the run whose second mint is rejected. *)
Lemma main_aborts_on_failure_witness :
  outcome_of (main (WORLD := world (rejecting 7)) 0%nat) = Throw boom /\
  issued [Console_error (failure_message minting) boom] = [] /\
  submitted_phases [Console_error (failure_message minting) boom] = [].
Proof.
  apply (@main_aborts_on_failure sdk (world (rejecting 7)) 0%nat boom
           [Console_error (failure_message minting) boom]).
  at_position 0%nat.
Defined.

(** C6 on a tree creation that is confirmed. *)
Lemma confirmed_transaction_is_linked_witness :
  exists later,
    [Console_log ["https://explorer.solana.com/tx/sig1?cluster=devnet"];
     Console_log ["Tree Address:"; "pk:tree"]] =
    Console_log [("https://explorer.solana.com/tx/" ++ "sig1" ++ "?cluster=devnet")%string]
    :: later.
Proof.
  eassert (Hin : In (_, "sig1",
                     [Console_log ["https://explorer.solana.com/tx/sig1?cluster=devnet"];
                      Console_log ["Tree Address:"; "pk:tree"]])
                    (confirmations
                       (trace_of
                          (invoke (WORLD := world fair_weather) tree_creation 0%nat))))
    by at_position 0%nat.
  destruct (@confirmed_transaction_is_linked sdk (world fair_weather)
              tree_creation 0%nat _ _ _ Hin) as (later & E & _).
  exists later. exact E.
Defined.

(** C7 on the first mint of the run in which nothing is rejected. *)
Lemma mints_go_to_the_created_tree_witness :
  MintV1.treeAuthority mint_accounts =
    fst (findProgramAddressSync [toBuffer (MintV1.merkleTree mint_accounts)]
           BUBBLEGUM_PROGRAM_ID).
Proof.
  refine (proj1 (@mints_go_to_the_created_tree sdk (world fair_weather)
                   0%nat _ _ _ _ mint_accounts mint_args _ _)).
  - at_position 5%nat.
  - at_position 0%nat.
Defined.





(** X3 on a transfer from a tree whose canopy is deeper than the proof is
    long. *)
Lemma proof_path_is_a_prefix_witness :
  exists keys,
    map_throwing new_PublicKey (proof fetched_proof) = Ok keys /\
    two_nodes =
      map read_only
        (firstn
           (nodes_kept (length (proof fetched_proof))
              (getCanopyDepth tree_with_deep_canopy))
           keys).
Proof.
  eapply (@proof_path_is_a_prefix sdk (world deep_canopy) transfer_of_asset 0%nat
            _ _ _ _ _ two_nodes _ fetched_proof _ _ tree_with_deep_canopy).
  - at_position 3%nat.
  - at_position 0%nat.
  - reflexivity.
  - at_position 3%nat.
  - at_position 5%nat.
Defined.

(** X4 on a transfer in the run in which nothing is rejected. *)
Lemma instruction_is_built_from_the_fetched_data_witness :
  exists id asset id' assetProof treeAccount rootKey dataHashKey creatorHashKey,
    In (Settle (Call_heliusApi "getAsset" id) (Ok (Resp_asset asset)))
       (trace_of (invoke (WORLD := world fair_weather) transfer_of_asset 0%nat)) /\
    In (Settle (Call_heliusApi "getAssetProof" id') (Ok (Resp_assetProof assetProof)))
       (trace_of (invoke (WORLD := world fair_weather) transfer_of_asset 0%nat)) /\
    In (Settle (Call_fromAccountAddress (connection_of transfer_of_asset) "pk:tree")
          (Ok (Resp_treeAccount treeAccount)))
       (trace_of (invoke (WORLD := world fair_weather) transfer_of_asset 0%nat)) /\
    new_PublicKey (tree (compression asset)) = Ok "pk:tree" /\
    "authority" = getAuthority treeAccount /\
    new_PublicKey (trim (root assetProof)) = Ok rootKey /\
    list_byte_of_string "rootHash" = toBytes rootKey /\
    new_PublicKey (trim (data_hash (compression asset))) = Ok dataHashKey /\
    list_byte_of_string "dataHash" = toBytes dataHashKey /\
    new_PublicKey (trim (creator_hash (compression asset))) = Ok creatorHashKey /\
    list_byte_of_string "creatorHash" = toBytes creatorHashKey.
Proof.
  eapply (@instruction_is_built_from_the_fetched_data sdk (world fair_weather)
            transfer_of_asset 0%nat _ _ _ _ _ "pk:tree" "authority"
            (list_byte_of_string "rootHash") (list_byte_of_string "dataHash") (list_byte_of_string "creatorHash")).
  - at_position 3%nat.
  - at_position 0%nat.
  - reflexivity.
Defined.

(** X5 on a transfer whose proof ends in a node that is no key. *)
Lemma invalid_proof_node_stops_the_phase_witness :
  submissions (trace_of (invoke (WORLD := world bad_last_node) transfer_of_asset 0%nat)) = [] /\
  exists e',
    outcome_of (invoke (WORLD := world bad_last_node) transfer_of_asset 0%nat) = Throw e'.
Proof.
  apply (@invalid_proof_node_stops_the_phase sdk (world bad_last_node)
           transfer_of_asset 0%nat "asset" proof_with_bad_node invalid_key).
  - at_position 3%nat.
  - reflexivity.
Defined.

(** X6 on a mint whose transaction is rejected. *)
Lemma phase_failure_is_reported_witness :
  exists earlier last,
    trace_of (invoke (WORLD := world (rejecting 0)) minting 0%nat) = earlier ++ [last] /\
    (last = Console_error (failure_message minting) boom \/
     exists c, is_createAllocTreeIx c = true /\ last = Settle c (Throw boom)).
Proof.
  apply (@phase_failure_is_reported sdk (world (rejecting 0)) minting 0%nat boom).
  vm_compute. reflexivity.
Defined.

(** X7 on the creation and the first mint of the run in which nothing is
    rejected. *)
Lemma mint_and_creation_agree_on_the_tree_witness :
  MintV1.merkleTree mint_accounts = CreateTree.merkleTree create_accounts /\
  MintV1.treeAuthority mint_accounts = CreateTree.treeAuthority create_accounts.
Proof.
  eapply (@mint_and_creation_agree_on_the_tree sdk (world fair_weather) 0%nat
            _ _ _ _ create_accounts create_args _
            _ _ _ _ mint_accounts mint_args).
  - at_position 4%nat.
  - at_position 1%nat.
  - at_position 5%nat.
  - at_position 0%nat.
Defined.

(** X8 on a mint that completes. *)
Lemma asset_id_is_extracted_from_the_confirmed_mint_witness :
  devnet = devnet /\
  "pk:tree" = "pk:tree" /\
  exists tx post accounts args,
    In (tx, "sig0", post)
       (confirmations
          (trace_of
             (mintCompressedNFT (WORLD := world fair_weather)
                devnet wallet_1 "pk:tree" 0%nat))) /\
    instructions tx = [createMintV1Instruction accounts args].
Proof.
  apply (@asset_id_is_extracted_from_the_confirmed_mint sdk (world fair_weather)
           devnet wallet_1 "pk:tree" 0%nat devnet "sig0" "pk:tree").
  at_position 1%nat.
Defined.

(** X10 on a tree creation and on a mint in which nothing is rejected. *)
Lemma submission_is_paid_and_signed_by_the_caller_witness :
  (devnet = connection_of tree_creation /\
   confirmed_skipPreflight = {| commitment := "confirmed"; skipPreflight := true |} /\
   feePayer create_transaction = Some (publicKey (caller tree_creation)) /\
   ((phase_of tree_creation = Phase_createTree /\
     exists treeKeypair ix accounts args programId,
       ["tree"; wallet_1] = [treeKeypair; caller tree_creation] /\
       instructions create_transaction =
         [Ix_alloc ix; createCreateTreeInstruction accounts args programId] /\
       CreateTree.merkleTree accounts = publicKey treeKeypair) \/
    (phase_of tree_creation <> Phase_createTree /\
     ["tree"; wallet_1] = [caller tree_creation]))) /\
  [wallet_1] = [caller minting].
Proof.
  split.
  - apply (@submission_is_paid_and_signed_by_the_caller sdk (world fair_weather)
             tree_creation 0%nat devnet create_transaction ["tree"; wallet_1]
             confirmed_skipPreflight).
    at_position 1%nat.
  - eassert (Hin : In (Call_sendAndConfirmTransaction devnet _ [wallet_1]
                         confirmed_skipPreflight)
                      (issued
                         (trace_of
                            (invoke (WORLD := world fair_weather) minting 0%nat))))
      by at_position 0%nat.
    destruct (@submission_is_paid_and_signed_by_the_caller sdk (world fair_weather)
                minting 0%nat _ _ _ _ Hin)
      as (_ & _ & _ & [[Hphase _] | [_ Hsigners]]);
      [discriminate Hphase | exact Hsigners].
Defined.

(** X12 on the first mint of the run in which nothing is rejected. *)
Lemma main_uses_the_two_wallets_witness : In wallet_1 [wallet_1].
Proof.
  eassert (Hin : In (Call_sendAndConfirmTransaction devnet _ [wallet_1]
                       confirmed_skipPreflight)
                    (issued (trace_of (main (WORLD := world fair_weather) 0%nat))))
    by at_position 5%nat.
  assert (Hkp1 : io_getOrCreateKeypair (World := world fair_weather)
                   "Wallet_1" 0%nat = (Ok wallet_1, 1%nat)) by reflexivity.
  assert (Hkp2 : io_getOrCreateKeypair (World := world fair_weather)
                   "Wallet_2" 1%nat = (Ok wallet_2, 2%nat)) by reflexivity.
  exact (proj1 (proj2 (@main_uses_the_two_wallets sdk (world fair_weather)
                         0%nat 1%nat 2%nat wallet_1 wallet_2 _ _ _ _
                         Hkp1 Hkp2 Hin))).
Defined.

(** X13 on a mint whose extraction is rejected. *)
Lemma rejected_extraction_leaves_a_confirmed_mint_witness :
  outcome_of
    (mintCompressedNFT (WORLD := world (rejecting 1)) devnet wallet_1 "pk:tree" 0%nat) =
    Throw boom /\
  submitted_phases
    (trace_of
       (mintCompressedNFT (WORLD := world (rejecting 1)) devnet wallet_1 "pk:tree" 0%nat)) =
    [Phase_mint] /\
  exists tx later,
    In (tx, "sig0", later)
       (confirmations
          (trace_of
             (mintCompressedNFT (WORLD := world (rejecting 1))
                devnet wallet_1 "pk:tree" 0%nat))).
Proof.
  apply (@rejected_extraction_leaves_a_confirmed_mint sdk (world (rejecting 1))
           devnet wallet_1 "pk:tree" 0%nat devnet "sig0" "pk:tree" boom
           [Console_error (failure_message minting) boom]).
  at_position 0%nat.
Defined.

(** X15 on a burn of an asset that has a delegate. *)
Lemma present_delegate_is_used_witness :
  exists id asset,
    In (Settle (Call_heliusApi "getAsset" id) (Ok (Resp_asset asset)))
       (trace_of
          (invoke (WORLD := world with_delegate) burn_of_asset 0%nat)) /\
    forall d,
      delegate (ownership asset) = Some d -> d <> EmptyString ->
      new_PublicKey d = Ok "pk:Delegate".
Proof.
  eapply (@present_delegate_is_used sdk (world with_delegate) burn_of_asset 0%nat
            _ _ _ _ _ "pk:Wallet_1" "pk:Delegate" 1 1).
  - at_position 3%nat.
  - at_position 0%nat.
  - reflexivity.
Defined.

End Runs.
